(** * Kernel lifecycle of the compute-node agent: a shallow embedding

    The development embeds the functions of [sorna/agent/server.py]
    (the RPC server of the agent) and [ai/backend/agent/utils.py]
    ([parse_service_ports]) and proves the properties stated about them.

    Conventions.
    - A Python function that may raise returns a [result]; a method of the
      agent is a state transformer [M A := State -> result A * State]
      (mutations made before an exception is raised persist, as in Python).
    - Calls that leave the process (container engine, upstream event
      channel, in-container runner, clock, random tokens) take their outcome
      from an explicit environment record, one field per call site.
    - Dictionaries used as maps are [gmap]s; sets are [gset]s.
    - A [str] that [parse_service_ports] reads is the list of its code
      points; the classes [\w] and [\d] of the pattern and the digits of
      [int] are those of Unicode, given by the tables of the interpreter. *)

From stdpp Require Import gmap strings list fin_maps sorting pretty.
From Stdlib Require Import ZArith Ascii.

Local Open Scope Z_scope.

(** ** Python values shared by both source files *)

Module Py.

(** The exception classes the two files raise or catch. *)
Inductive exn : Type :=
| KeyError
| TypeError
| AssertionError
| AttributeError
| StopIteration
| TimeoutError
| CancelledError
| FileNotFoundError
| FileExistsError
| ValueError (msg : string)
| DockerError (status : Z) (message : string)
| OtherError (what : string).

Inductive result (A : Type) : Type :=
| Ok (a : A)
| Raise (e : exn).
Arguments Ok {A} a.
Arguments Raise {A} e.

Definition is_ok {A} (r : result A) : bool :=
  match r with Ok _ => true | Raise _ => false end.

(** [s[n:]] *)
Fixpoint string_drop (n : nat) (s : string) : string :=
  match n, s with
  | O, _ => s
  | S n', String _ r => string_drop n' r
  | S _, EmptyString => EmptyString
  end.

(** [str.lstrip(chars)] and [str.rstrip(chars)] *)
Fixpoint lstrip (p : ascii -> bool) (s : string) : string :=
  match s with
  | EmptyString => EmptyString
  | String c r => if p c then lstrip p r else s
  end.

Definition rstrip (p : ascii -> bool) (s : string) : string :=
  String.rev (lstrip p (String.rev s)).

(** [s.split(sep)] for a one-character separator; [cur] is the piece being
    read, reversed. *)
Fixpoint split_go (sep : ascii) (cur : string) (s : string) : list string :=
  match s with
  | EmptyString => [String.rev cur]
  | String c r =>
      if Ascii.eqb c sep then String.rev cur :: split_go sep EmptyString r
      else split_go sep (String c cur) r
  end.

Definition split (sep : ascii) (s : string) : list string :=
  split_go sep EmptyString s.

(** [value in content] on strings. *)
Fixpoint contains (value content : string) : bool :=
  String.prefix value content
  || match content with
     | EmptyString => false
     | String _ r => contains value r
     end.

End Py.
Export Py.

(** ** [ai/backend/agent/utils.py]: [parse_service_ports] *)

Module Utils.

(** A [str] is the list of its code points. *)
Definition str : Type := list N.

(** [ord(c)] for a character of a literal, and a literal of the source. *)
Definition ord (c : ascii) : N := N_of_ascii c.

Definition lit (s : string) : str := map ord (String.list_ascii_of_string s).

(** The bytes of a [str] in UTF-8, for the text of a message. *)
Definition utf8 (c : N) : list ascii :=
  if (c <? 128)%N then [ascii_of_N c]
  else if (c <? 2048)%N then
    [ascii_of_N (192 + c / 64); ascii_of_N (128 + c mod 64)]
  else if (c <? 65536)%N then
    [ascii_of_N (224 + c / 4096); ascii_of_N (128 + (c / 64) mod 64);
     ascii_of_N (128 + c mod 64)]
  else
    [ascii_of_N (240 + c / 262144); ascii_of_N (128 + (c / 4096) mod 64);
     ascii_of_N (128 + (c / 64) mod 64); ascii_of_N (128 + c mod 64)].

Definition text (s : str) : string :=
  String.string_of_list_ascii (concat (map utf8 s)).

(** The classes [\d] and [\w] on the characters of ASCII. *)
Definition ascii_digit (c : N) : bool := (48 <=? c)%N && (c <=? 57)%N.

Definition ascii_word (c : N) : bool :=
  ascii_digit c
  || ((65 <=? c)%N && (c <=? 90)%N)
  || ((97 <=? c)%N && (c <=? 122)%N)
  || (c =? 95)%N.

(** What the interpreter knows of characters and of integers. The pattern
    [_rx_service_ports] is a [str] pattern compiled without [re.ASCII], so
    its [\w] and [\d] are those of Unicode, and [int] reads every decimal
    digit of Unicode; both are tables of the interpreter, of which the file
    fixes the ASCII part. *)
Class Unicode : Type := {
  (** [\w]: the alphanumeric characters and the underscore *)
  uc_word : N -> bool;
  (** [\d]: the decimal digits; they are the characters [int] reads *)
  uc_digit : N -> bool;
  (** the value of a decimal digit *)
  uc_value : N -> Z;
  (** [sys.get_int_max_str_digits()]; [None] where there is no limit *)
  int_max_str_digits : option nat;
  uc_word_ascii : forall c, (c < 128)%N -> uc_word c = ascii_word c;
  uc_digit_ascii : forall c, (c < 128)%N -> uc_digit c = ascii_digit c;
  uc_digit_word : forall c, uc_digit c = true -> uc_word c = true;
  uc_value_ascii : forall c, ascii_digit c = true -> uc_value c = Z.of_N c - 48;
  uc_value_range : forall c, uc_digit c = true -> 0 <= uc_value c <= 9;
  int_max_str_digits_min :
    forall n, int_max_str_digits = Some n -> (640 <= n)%nat;
}.

(** [ServicePortProtocols] and [ServicePort] of [ai.backend.common.types]. *)
Inductive ServicePortProtocols : Type := HTTP | TCP | PTY.

Record ServicePort : Type := mkServicePort {
  name : str;
  protocol : ServicePortProtocols;
  container_ports : list Z;
  host_ports : list (option Z);
}.

(** A successful [_rx_service_ports.search]: the whole match and the three
    named groups. *)
Record rx_match : Type := mkMatch {
  group0 : str;
  g_name : str;
  g_proto : str;
  g_ports : str;
}.

(** [span p s]: the longest prefix of [s] whose characters satisfy [p], and
    the rest (a greedy [p+] that is followed by a character outside [p]
    cannot give characters back). *)
Fixpoint span (p : N -> bool) (s : str) : str * str :=
  match s with
  | [] => ([], [])
  | c :: r =>
      if p c then let '(a, b) := span p r in (c :: a, b)
      else ([], s)
  end.

(** [str.lstrip(chars)], [str.rstrip(chars)], [str.strip(chars)] *)
Fixpoint lstrip (p : N -> bool) (s : str) : str :=
  match s with
  | [] => []
  | c :: r => if p c then lstrip p r else s
  end.

Definition rstrip (p : N -> bool) (s : str) : str :=
  reverse (lstrip p (reverse s)).

Definition strip (p : N -> bool) (s : str) : str := rstrip p (lstrip p s).

(** [s.split(sep)] for a one-character separator; [cur] is the piece being
    read, reversed. *)
Fixpoint split_go (sep : N) (cur : str) (s : str) : list str :=
  match s with
  | [] => [reverse cur]
  | c :: r =>
      if (c =? sep)%N then reverse cur :: split_go sep [] r
      else split_go sep (c :: cur) r
  end.

Definition split (sep : N) (s : str) : list str := split_go sep [] s.

Section Parser.
Context `{Unicode}.

(** [int(s)] on the strings this code passes to it: a non-empty run of
    decimal digits denotes its value unless it is longer than the limit of
    the interpreter; anything else is a [ValueError]. *)
Fixpoint int_digits (acc : Z) (s : str) : option Z :=
  match s with
  | [] => Some acc
  | c :: r =>
      if uc_digit c then int_digits (10 * acc + uc_value c) r else None
  end.

Definition int (s : str) : result Z :=
  match s with
  | [] => Raise (ValueError "invalid literal for int() with base 10")
  | _ =>
      match int_digits 0 s with
      | None => Raise (ValueError "invalid literal for int() with base 10")
      | Some z =>
          match int_max_str_digits with
          | Some limit =>
              if (limit <? length s)%nat then
                Raise (ValueError
                         ("Exceeds the limit (" +:+ pretty limit
                          +:+ " digits) for integer string conversion: "
                          +:+ "value has " +:+ pretty (length s)
                          +:+ " digits; use sys.set_int_max_str_digits() "
                          +:+ "to increase the limit"))
              else Ok z
          | None => Ok z
          end
      end
  end.

(** [\d+(?:,\d+)*\]] read after the opening bracket. [after_digit] tells
    whether the previous character was a digit, the only place where a comma
    or the closing bracket may stand. Returns the text read (closing bracket
    included) and the rest. *)
Fixpoint rx_bracket_list (after_digit : bool) (s : str) : option (str * str) :=
  match s with
  | [] => None
  | c :: r =>
      if uc_digit c then
        match rx_bracket_list true r with
        | Some (a, b) => Some (c :: a, b)
        | None => None
        end
      else if after_digit && (c =? ord ",")%N then
        match rx_bracket_list false r with
        | Some (a, b) => Some (c :: a, b)
        | None => None
        end
      else if after_digit && (c =? ord "]")%N then Some ([c], r)
      else None
  end.

(** The group [ports]: [\[\d+(?:,\d+)*\]|\d+]. *)
Definition rx_ports (s : str) : option (str * str) :=
  match s with
  | c :: r =>
      if (c =? ord "[")%N then
        match rx_bracket_list false r with
        | Some (a, b) => Some (c :: a, b)
        | None => None
        end
      else
        let '(d, r) := span uc_digit s in
        match d with
        | [] => None
        | _ => Some (d, r)
        end
  | [] => None
  end.

(** The final [(?:,|$)]: a comma, which is consumed, or the end of the
    string, which [$] also accepts just before a last newline. *)
Definition rx_terminator (s : str) : option str :=
  match s with
  | [] => Some []
  | c :: r =>
      if (c =? ord ",")%N then Some [c]
      else if (c =? 10)%N then match r with [] => Some [] | _ => None end
      else None
  end.

(** [_rx_service_ports.search(s)]. The pattern starts with [^], so a match
    starts at the first character. *)
Definition rx_search (s : str) : option rx_match :=
  let '(nm, r1) := span uc_word s in
  match nm, r1 with
  | _ :: _, c1 :: r2 =>
      if (c1 =? ord ":")%N then
        let '(pr, r3) := span uc_word r2 in
        match pr, r3 with
        | _ :: _, c3 :: r4 =>
            if (c3 =? ord ":")%N then
              match rx_ports r4 with
              | Some (ps, r5) =>
                  match rx_terminator r5 with
                  | Some t =>
                      Some (mkMatch (nm ++ [c1] ++ pr ++ [c3] ++ ps ++ t)
                                    nm pr ps)
                  | None => None
                  end
              | None => None
              end
            else None
        | _, _ => None
        end
      else None
  | _, _ => None
  end.

Definition is_bracket (c : N) : bool :=
  (c =? ord "[")%N || (c =? ord "]")%N.

(** [map(int, match.group('ports').strip('[]').split(','))], left to right. *)
Fixpoint map_int (l : list str) : result (list Z) :=
  match l with
  | [] => Ok []
  | x :: r =>
      match int x with
      | Raise e => Raise e
      | Ok z => match map_int r with
                | Raise e => Raise e
                | Ok zs => Ok (z :: zs)
                end
      end
  end.

Definition ports_of (m : rx_match) : result (list Z) :=
  map_int (split (ord ",") (strip is_bracket (g_ports m))).

(** The [for p in ports] loop: the three checks in source order, then
    [used_ports.add(p)]. *)
Fixpoint check_ports (ports : list Z) (used_ports : gset Z)
  : result (gset Z) :=
  match ports with
  | [] => Ok used_ports
  | p :: rest =>
      if bool_decide (p ∈ used_ports) then
        Raise (ValueError ("The port " +:+ pretty p
                           +:+ " is already used by another service port."))
      else if p <=? 1024 then
        Raise (ValueError ("The service port number " +:+ pretty p
                           +:+ " must be larger than 1024."))
      else if bool_decide (p ∈ [2000; 2001; 2002; 2003]) then
        Raise (ValueError
                 "The service ports 2000 to 2003 are reserved for internal use.")
      else check_ports rest ({[p]} ∪ used_ports)
  end.

Definition protocol_of (s : str) : ServicePortProtocols :=
  if bool_decide (s = lit "tcp") then TCP
  else if bool_decide (s = lit "http") then HTTP
  else PTY.

(** The [while True] loop of [parse_service_ports]. Every iteration that
    goes round again has consumed a match, so the length of [s] bounds the
    number of iterations; [None] means the bound [fuel] ran out. *)
Fixpoint parse_loop (fuel : nat) (s : str) (items : list ServicePort)
         (used_ports : gset Z) : option (result (list ServicePort)) :=
  match fuel with
  | O => None
  | S fuel' =>
      match rx_search s with
      | Some m =>
          let s := drop (length (group0 m)) s in
          let name := g_name m in
          if bool_decide (name = []) then
            Some (Raise (ValueError "Service port name must be not empty."))
          else
          let protocol := g_proto m in
          if bool_decide (protocol = lit "pty") then
            (* unsupported, skip *)
            parse_loop fuel' s items used_ports
          else if negb (bool_decide (protocol = lit "tcp")
                        || bool_decide (protocol = lit "http"))
          then
            Some (Raise (ValueError
                           ("Unsupported service port protocol: "
                            +:+ text protocol)))
          else
            match ports_of m with
            | Raise e => Some (Raise e)
            | Ok ports =>
                match check_ports ports used_ports with
                | Raise e => Some (Raise e)
                | Ok used_ports =>
                    let items :=
                      items ++ [mkServicePort name (protocol_of protocol) ports
                                  (replicate (length ports) None)] in
                    if bool_decide (s = []) then Some (Ok items)
                    else parse_loop fuel' s items used_ports
                end
            end
      | None => Some (Ok items)
      end
  end.

Definition parse_service_ports (s : str)
  : option (result (list ServicePort)) :=
  parse_loop (S (length s)) s [] ∅.

(** *** The entries a string declares

    The successive matches of the pattern, each taken at the start of what
    the previous one left. *)
Fixpoint scan_entries (fuel : nat) (s : str) : list rx_match :=
  match fuel with
  | O => []
  | S fuel' =>
      match rx_search s with
      | Some m => m :: scan_entries fuel' (drop (length (group0 m)) s)
      | None => []
      end
  end.

Definition entries (s : str) : list rx_match :=
  scan_entries (S (length s)) s.

Definition non_pty (m : rx_match) : bool :=
  negb (bool_decide (g_proto m = lit "pty")).

(** The entries that are not skipped. *)
Definition accepted_entries (s : str) : list rx_match :=
  filter (fun m => non_pty m = true) (entries s).

(** The port numbers they declare, in order of appearance. *)
Definition entry_ports (m : rx_match) : list Z :=
  match ports_of m with Ok ps => ps | Raise _ => [] end.

Definition declared_ports (s : str) : list Z :=
  concat (map entry_ports (accepted_entries s)).

(** What the parser does with a list of entries none of which is a [pty]
    one: the body of the loop without the skip. *)
Fixpoint take_entries (es : list rx_match) (items : list ServicePort)
         (used_ports : gset Z) : result (list ServicePort) :=
  match es with
  | [] => Ok items
  | m :: es' =>
      if bool_decide (g_name m = []) then
        Raise (ValueError "Service port name must be not empty.")
      else if negb (bool_decide (g_proto m = lit "tcp")
                    || bool_decide (g_proto m = lit "http"))
      then Raise (ValueError
                    ("Unsupported service port protocol: "
                     +:+ text (g_proto m)))
      else
        match ports_of m with
        | Raise e => Raise e
        | Ok ports =>
            match check_ports ports used_ports with
            | Raise e => Raise e
            | Ok used_ports =>
                take_entries es'
                  (items ++ [mkServicePort (g_name m) (protocol_of (g_proto m))
                               ports (replicate (length ports) None)])
                  used_ports
            end
        end
  end.

End Parser.

Definition reserved_port (p : Z) : Prop := p ∈ [2000; 2001; 2002; 2003].

Definition is_value_error {A} (r : option (result A)) : Prop :=
  ∃ msg, r = Some (Raise (ValueError msg)).

End Utils.

(** ** [sorna/agent/server.py] *)

Module Server.

(** *** Values crossing the RPC boundary *)

Inductive pyval : Type :=
| PNone
| PBool (b : bool)
| PInt (z : Z)
| PStr (s : string)
| PList (l : list pyval)
| PDict (d : list (string * pyval)).

(** A JSON object received as an argument; [d[k]] reads the first binding. *)
Definition pydict : Type := list (string * pyval).

Fixpoint dict_get (d : pydict) (k : string) : option pyval :=
  match d with
  | [] => None
  | (k', v) :: r => if String.eqb k' k then Some v else dict_get r k
  end.

(** [x in (a, b, c)] for a tuple of string constants. *)
Definition pyval_in (v : pyval) (l : list string) : bool :=
  match v with
  | PStr s => existsb (String.eqb s) l
  | _ => false
  end.

(** Functions of the Python library and of other packages that the file
    calls and that this development does not look into. *)
Class HostLib : Type := {
  (** [re.search(pattern, content) is not None]; raises on a bad pattern *)
  re_search : string -> string -> result bool;
  (** [int(s)] on an arbitrary string *)
  int_of_str : string -> result Z;
  (** [libnuma.node_of_cpu] *)
  node_of_cpu : nat -> Z;
  (** [sorna.utils.readable_size_to_bytes] *)
  readable_size_to_bytes : string -> result Z;
  (** [os.path.relpath] *)
  relpath : string -> string -> string;
}.

(** *** The CPU allocator *)

Definition CoreSet : Type := gset nat.

(** Modelled from the spec: the class [CPUAllocMap] of
    [sorna/agent/resources.py] with its attribute [num_cores] and its
    methods [alloc] and [free]. The spec (4.1): the allocator is initialised
    from the topology (NUMA node to list of cores); [alloc(n)] chooses the
    node with the most free cores and takes the numerically lowest
    [min(n, node_capacity)] free cores of it, [n] clamped to the total;
    [alloc(0)] is a programmer error; [free] returns the cores to the pool
    and tolerates unknown cores. *)
Record CPUAllocMap : Type := mkCPUAllocMap {
  core_topo : list (Z * list nat);
  free_cores : gset nat;
}.

Definition num_cores (m : CPUAllocMap) : Z :=
  Z.of_nat (sum_list (map (fun nc => length (snd nc)) (core_topo m))).

Definition free_of (m : CPUAllocMap) (cores : list nat) : list nat :=
  filter (fun c => c ∈ free_cores m) cores.

Fixpoint most_free (m : CPUAllocMap) (topo : list (Z * list nat))
  : option (Z * list nat) :=
  match topo with
  | [] => None
  | nc :: rest =>
      match most_free m rest with
      | None => Some nc
      | Some nc' =>
          if (length (free_of m (snd nc')) <=? length (free_of m (snd nc)))%nat
          then Some nc else Some nc'
      end
  end.

Definition alloc (n : Z) (m : CPUAllocMap)
  : result (Z * CoreSet) * CPUAllocMap :=
  if n <=? 0 then (Raise AssertionError, m)
  else
    match most_free m (core_topo m) with
    | None => (Raise (ValueError "no NUMA node"), m)
    | Some (node, cores) =>
        let n := Z.min n (num_cores m) in
        let k := Nat.min (Z.to_nat n) (length cores) in
        let taken := take k (merge_sort Nat.le (free_of m cores)) in
        (Ok (node, list_to_set taken),
         mkCPUAllocMap (core_topo m) (free_cores m ∖ list_to_set taken))
    end.

Definition free (cs : CoreSet) (m : CPUAllocMap) : CPUAllocMap :=
  mkCPUAllocMap (core_topo m) (free_cores m ∪ cs).

(** *** Kernel records *)

(** The arguments [KernelRunner] is constructed with. *)
Record KernelRunner : Type := mkKernelRunner {
  kr_kernel_id : string;
  kr_container_ip : string;
  kr_repl_in_port : string;
  kr_repl_out_port : string;
  kr_exec_timeout : Z;
  kr_features : list string;
}.

(** What [runner.get_next_result] returns. *)
Record RunnerResult : Type := mkRunnerResult {
  rr_stdout : string;
  rr_stderr : string;
  rr_status : string;
  rr_media : list pyval;
  rr_html : list pyval;
  (** [None]: no [options]; [Some None]: no [upload_output_files] in it *)
  rr_options : option (option bool);
}.

(** The dictionary [execute_code] answers with. *)
Record ResultMap : Type := mkResultMap {
  stdout : string;
  stderr : string;
  status : string;
  media : list pyval;
  html : list pyval;
  options : option (option bool);
  exceptions : list (string * pyval);
  files : list string;
  match_result_key : option bool;
}.

(** [asyncio.Task.current_task()] inside [_execute_code]: the task that runs
    one [execute_code] call, suspended in [runner.get_next_result], with the
    locals its continuation reads. *)
Record Task : Type := mkTask {
  t_entry_id : string;
  t_kernel_id : string;
  t_match : option pydict;
  t_runner : KernelRunner;
}.

Definition FileStats : Type := list (string * (Z * Z)).
Definition Stat : Type := list (string * Z).

(** An entry of [container_registry]. The four last keys are optional. *)
Record KernelRecord : Type := mkKernelRecord {
  lang : string;
  version : Z;
  container_id : string;
  container_ip : string;
  repl_in_port : string;
  repl_out_port : string;
  stdin_port : string;
  stdout_port : string;
  cpu_shares : Z;
  numa_node : Z;
  core_set : CoreSet;
  mem_limit : string;
  exec_timeout : Z;
  num_queries : Z;
  last_used : Z;
  runner : option KernelRunner;
  runner_task : option Task;
  initial_file_stats : option FileStats;
  last_stat : option (option Stat);
}.

Definition set_usage (lu nq : Z) (r : KernelRecord) : KernelRecord :=
  mkKernelRecord (lang r) (version r) (container_id r) (container_ip r)
    (repl_in_port r) (repl_out_port r) (stdin_port r) (stdout_port r)
    (cpu_shares r) (numa_node r) (core_set r) (mem_limit r) (exec_timeout r)
    nq lu (runner r) (runner_task r) (initial_file_stats r) (last_stat r).

Definition set_runner (x : option KernelRunner) (r : KernelRecord)
  : KernelRecord :=
  mkKernelRecord (lang r) (version r) (container_id r) (container_ip r)
    (repl_in_port r) (repl_out_port r) (stdin_port r) (stdout_port r)
    (cpu_shares r) (numa_node r) (core_set r) (mem_limit r) (exec_timeout r)
    (num_queries r) (last_used r) x (runner_task r) (initial_file_stats r)
    (last_stat r).

Definition set_runner_task (x : option Task) (r : KernelRecord)
  : KernelRecord :=
  mkKernelRecord (lang r) (version r) (container_id r) (container_ip r)
    (repl_in_port r) (repl_out_port r) (stdin_port r) (stdout_port r)
    (cpu_shares r) (numa_node r) (core_set r) (mem_limit r) (exec_timeout r)
    (num_queries r) (last_used r) (runner r) x (initial_file_stats r)
    (last_stat r).

Definition set_initial_file_stats (x : option FileStats) (r : KernelRecord)
  : KernelRecord :=
  mkKernelRecord (lang r) (version r) (container_id r) (container_ip r)
    (repl_in_port r) (repl_out_port r) (stdin_port r) (stdout_port r)
    (cpu_shares r) (numa_node r) (core_set r) (mem_limit r) (exec_timeout r)
    (num_queries r) (last_used r) (runner r) (runner_task r) x (last_stat r).

Definition set_last_stat (x : option (option Stat)) (r : KernelRecord)
  : KernelRecord :=
  mkKernelRecord (lang r) (version r) (container_id r) (container_ip r)
    (repl_in_port r) (repl_out_port r) (stdin_port r) (stdout_port r)
    (cpu_shares r) (numa_node r) (core_set r) (mem_limit r) (exec_timeout r)
    (num_queries r) (last_used r) (runner r) (runner_task r)
    (initial_file_stats r) x.

(** *** The agent and its surroundings *)

Record Config : Type := mkConfig {
  cfg_exec_timeout : Z;
  cfg_idle_timeout : Z;
  cfg_volume_root : string;
}.

Inductive event : Type :=
| kernel_creating (kernel_id : string)
| kernel_restarting (kernel_id : string)
| kernel_terminated (kernel_id : string) (reason : string)
                    (kernel_stat : option Stat).

(** The coroutines handed to [asyncio.ensure_future]. *)
Inductive future : Type :=
| FCleanKernel (kernel_id : string)
| FDestroyKernel (kernel_id : string) (reason : string).

(** The [config] argument of [docker.containers.create]. *)
Record ContainerConfig : Type := mkContainerConfig {
  Image : string;
  Tty : bool;
  Volumes : list string;
  StopSignal : string;
  ExposedPorts : list string;
  Env : list string;
  MemorySwap : Z;
  Memory : Z;
  CpusetCpus : string;
  CpusetMems : string;
  SecurityOpt : list string;
  Binds : list string;
  Devices : list pyval;
  PublishAllPorts : bool;
}.

(** The calls that leave the process, as they are logged in [trace]. *)
Inductive call : Type :=
| Dispatch (ev : event)
| ImagesGet (image_name : string)
| VolumesList
| PrepareNvidia (numa_node : Z)
| ContainersCreate (config : ContainerConfig) (name : string)
| ContainerStart (cid : string)
| ContainerPort (cid : string) (private_port : Z)
| ContainerKill (cid : string)
| ContainerDelete (cid : string)
| CollectStats (cids : list string)
| Scandir (path : string)
| RunnerStart (r : KernelRunner) (code_id code : string)
| RunnerFeedInput (r : KernelRunner) (code_id code : string)
| RunnerGetNextResult (r : KernelRunner) (api_ver : Z)
| RunnerClose (r : KernelRunner)
| UploadOutputFiles (initial final : FileStats) (entry_id : string)
| EventWait (kernel_id : string) (deadline : Z)
| TaskCancel (t : Task)
| EnsureFuture (f : future).

(** The attributes of [AgentRPCServer] and the module globals
    [restarting_kernels] and [blocking_cleans] (an [asyncio.Event] is its
    flag), the directories that exist on the host, and the log of calls,
    oldest first. *)
Record State : Type := mkState {
  config : Config;
  container_registry : gmap string KernelRecord;
  container_cpu_map : CPUAllocMap;
  restarting_kernels : gmap string bool;
  blocking_cleans : gmap string bool;
  directories : gset string;
  trace : list call;
}.

Definition with_registry (f : gmap string KernelRecord -> gmap string KernelRecord)
           (s : State) : State :=
  mkState (config s) (f (container_registry s)) (container_cpu_map s)
    (restarting_kernels s) (blocking_cleans s) (directories s) (trace s).

Definition with_cpu_map (f : CPUAllocMap -> CPUAllocMap) (s : State) : State :=
  mkState (config s) (container_registry s) (f (container_cpu_map s))
    (restarting_kernels s) (blocking_cleans s) (directories s) (trace s).

Definition with_restarting (f : gmap string bool -> gmap string bool)
           (s : State) : State :=
  mkState (config s) (container_registry s) (container_cpu_map s)
    (f (restarting_kernels s)) (blocking_cleans s) (directories s) (trace s).

Definition with_blocking (f : gmap string bool -> gmap string bool)
           (s : State) : State :=
  mkState (config s) (container_registry s) (container_cpu_map s)
    (restarting_kernels s) (f (blocking_cleans s)) (directories s) (trace s).

Definition with_directories (f : gset string -> gset string) (s : State)
  : State :=
  mkState (config s) (container_registry s) (container_cpu_map s)
    (restarting_kernels s) (blocking_cleans s) (f (directories s)) (trace s).

Definition with_trace (f : list call -> list call) (s : State) : State :=
  mkState (config s) (container_registry s) (container_cpu_map s)
    (restarting_kernels s) (blocking_cleans s) (directories s) (f (trace s)).

(** *** Methods as state transformers *)

Definition M (A : Type) : Type := State -> result A * State.

Definition ret {A} (a : A) : M A := fun s => (Ok a, s).

Definition raise {A} (e : exn) : M A := fun s => (Raise e, s).

Definition bind {A B} (m : M A) (k : A -> M B) : M B :=
  fun s =>
    match m s with
    | (Ok a, s') => k a s'
    | (Raise e, s') => (Raise e, s')
    end.

Declare Scope agent_scope.
Delimit Scope agent_scope with agent.
Notation "x <- m ;; k" := (bind m (fun x => k))
  (at level 100, m at next level, right associativity) : agent_scope.
Notation "m ;;; k" := (bind m (fun _ => k))
  (at level 100, right associativity) : agent_scope.
Local Open Scope agent_scope.

(** [try: m  except: h] *)
Definition try_except {A} (m : M A) (h : exn -> M A) : M A :=
  fun s =>
    match m s with
    | (Ok a, s') => (Ok a, s')
    | (Raise e, s') => h e s'
    end.

(** [try: m  finally: f]; an exception of [f] replaces the outcome of [m]. *)
Definition try_finally {A} (m : M A) (f : M unit) : M A :=
  fun s =>
    match m s with
    | (r, s') =>
        match f s' with
        | (Ok _, s'') => (r, s'')
        | (Raise e, s'') => (Raise e, s'')
        end
    end.

Definition get : M State := fun s => (Ok s, s).

Definition modify (f : State -> State) : M unit := fun s => (Ok tt, f s).

Definition lift {A} (r : result A) : M A := fun s => (r, s).

(** A call that leaves the process: it is logged, and its outcome is the one
    the environment gives. *)
Definition perform {A} (c : call) (outcome : result A) : M A :=
  fun s => (outcome, with_trace (fun t => t ++ [c]) s).

Definition ensure_future (f : future) : M unit :=
  perform (EnsureFuture f) (Ok tt).

(** [self.container_registry[kernel_id]] *)
Definition registry_get (kernel_id : string) : M KernelRecord :=
  fun s =>
    match container_registry s !! kernel_id with
    | Some r => (Ok r, s)
    | None => (Raise KeyError, s)
    end.

(** [self.container_registry[kernel_id][key] = value] *)
Definition registry_update (kernel_id : string)
           (f : KernelRecord -> KernelRecord) : M unit :=
  r <- registry_get kernel_id ;;
  modify (with_registry (insert kernel_id (f r))).

(** [del self.container_registry[kernel_id]] *)
Definition registry_del (kernel_id : string) : M unit :=
  _ <- registry_get kernel_id ;;
  modify (with_registry (delete kernel_id)).

(** [del self.container_registry[kernel_id]['runner']] and its like: the key
    must be there. *)
Definition registry_del_key {X} (kernel_id : string)
           (proj : KernelRecord -> option X)
           (clear : KernelRecord -> KernelRecord) : M unit :=
  r <- registry_get kernel_id ;;
  match proj r with
  | Some _ => modify (with_registry (insert kernel_id (clear r)))
  | None => raise KeyError
  end.

Definition work_dir_of (s : State) (kernel_id : string) : string :=
  cfg_volume_root (config s) +:+ "/" +:+ kernel_id.

Definition rmtree (path : string) : M unit :=
  fun s =>
    if decide (path ∈ directories s)
    then (Ok tt, with_directories (fun d => d ∖ {[path]}) s)
    else (Raise FileNotFoundError, s).

Definition makedirs (path : string) : M unit :=
  fun s =>
    if decide (path ∈ directories s)
    then (Raise FileExistsError, s)
    else (Ok tt, with_directories (fun d => {[path]} ∪ d) s).

Section Agent.
Context `{HostLib}.

(** **** [match_result] *)

Definition match_result (res : option ResultMap) (match_ : pydict)
  : result bool :=
  match dict_get match_ "op", dict_get match_ "target",
        dict_get match_ "value" with
  | Some op, Some target, Some value =>
      if negb (pyval_in op ["contains"; "equal"; "regex"])
      then Raise AssertionError
      else if negb (pyval_in target ["stdout"; "stderr"; "exception"])
      then Raise AssertionError
      else
        match value with
        | PStr value =>
            let compare (content : string) : result bool :=
              if pyval_in op ["contains"] then Ok (contains value content)
              else if pyval_in op ["equal"] then Ok (String.eqb value content)
              else re_search value content in
            match res with
            | None => Raise TypeError
            | Some r =>
                if pyval_in target ["stdout"] then compare (stdout r)
                else if pyval_in target ["stderr"] then compare (stderr r)
                else
                  match last (exceptions r) with
                  | Some (exc_name, _) => compare exc_name
                  | None => Ok false
                  end
            end
        | _ => Raise AssertionError
        end
  | _, _, _ => Raise TypeError
  end.

(** **** [clean_kernel] *)

Record clean_env : Type := mkCleanEnv {
  cl_delete : result unit;
  cl_dispatch : result unit;
}.

Definition clean_kernel (env : clean_env) (kernel_id : string) : M unit :=
  try_except
    (r <- registry_get kernel_id ;;
     let container_id := container_id r in
     try_except
       (perform (ContainerDelete container_id) (cl_delete env))
       (fun e =>
          match e with
          | DockerError status message =>
              if (status =? 400) && contains "already in progress" message
              then ret tt
              else if status =? 404 then ret tt
              else ret tt
          | _ => raise e
          end))
    (fun e => match e with KeyError => ret tt | _ => raise e end) ;;;
  s <- get ;;
  match restarting_kernels s !! kernel_id with
  | Some _ => modify (with_restarting (insert kernel_id true))
  | None =>
      let work_dir := work_dir_of s kernel_id in
      try_except (rmtree work_dir)
        (fun e => match e with FileNotFoundError => ret tt | _ => raise e end) ;;;
      try_except
        (r <- registry_get kernel_id ;;
         let kernel_stat := mjoin (last_stat r) in
         r <- registry_get kernel_id ;;
         modify (with_cpu_map (free (core_set r))) ;;;
         registry_del kernel_id ;;;
         perform (Dispatch (kernel_terminated kernel_id "destroyed" kernel_stat))
                 (cl_dispatch env))
        (fun e =>
           match e with
           | KeyError => ret tt
           | TimeoutError => ret tt
           | _ => raise e
           end) ;;;
      s <- get ;;
      match blocking_cleans s !! kernel_id with
      | Some _ => modify (with_blocking (insert kernel_id true))
      | None => ret tt
      end
  end.

(** **** [_execute_code] and [execute_code] *)

Record resume_env : Type := mkResumeEnv {
  re_close : result unit;
  re_scandir : result FileStats;
  re_upload : result (list string);
}.

Record execute_env : Type := mkExecuteEnv {
  ee_now : Z;
  ee_feed_input : result unit;
  ee_scandir : result FileStats;
  ee_start : result unit;
  ee_next_result : result RunnerResult;
  ee_resume : resume_env;
}.

(** Lines 365 to 393: bookkeeping, then the existing runner is fed or a new
    one is built and started. *)
Definition _execute_code_prepare (env : execute_env)
           (kernel_id code_id code_text : string) : M KernelRunner :=
  s <- get ;;
  let work_dir := work_dir_of s kernel_id in
  let api_ver := 2 in
  registry_update kernel_id (fun r => set_usage (ee_now env) (num_queries r) r) ;;;
  registry_update kernel_id
    (fun r => set_usage (last_used r) (num_queries r + 1) r) ;;;
  r <- registry_get kernel_id ;;
  match runner r with
  | Some runner =>
      perform (RunnerFeedInput runner code_id code_text) (ee_feed_input env) ;;;
      ret runner
  | None =>
      let features := if api_ver =? 2 then ["input"; "continuation"] else [] in
      stats <- perform (Scandir work_dir) (ee_scandir env) ;;
      registry_update kernel_id (set_initial_file_stats (Some stats)) ;;;
      r <- registry_get kernel_id ;;
      let runner :=
        mkKernelRunner kernel_id (container_ip r) (repl_in_port r)
          (repl_out_port r) (exec_timeout r) features in
      perform (RunnerStart runner code_id code_text) (ee_start env) ;;;
      registry_update kernel_id (set_runner (Some runner)) ;;;
      ret runner
  end.

(** Lines 395 to 407, the first [try]: [None] when the [except
    asyncio.CancelledError] branch returned from the function. *)
Definition _execute_code_guarded (env : resume_env) (task : Task)
           (body : M RunnerResult) : M (option RunnerResult) :=
  let kernel_id := t_kernel_id task in
  try_finally
    (try_except
       (r <- body ;; ret (Some r))
       (fun e =>
          match e with
          | CancelledError =>
              perform (RunnerClose (t_runner task)) (re_close env) ;;;
              registry_del_key kernel_id runner (set_runner None) ;;;
              ret None
          | _ => raise e
          end))
    (registry_del_key kernel_id runner_task (set_runner_task None)).

(** [self.container_resgistry]: the class has no attribute of that name. *)
Definition container_resgistry : M (gmap string KernelRecord) :=
  raise AttributeError.

(** Lines 409 to 444, the second [try]. *)
Definition _execute_code_finish (env : resume_env) (task : Task)
           (res : RunnerResult) : M ResultMap :=
  let kernel_id := t_kernel_id task in
  s <- get ;;
  let work_dir := work_dir_of s kernel_id in
  uploaded_files <-
    (if existsb (String.eqb (rr_status res)) ["finished"; "exec-timeout"] then
       perform (RunnerClose (t_runner task)) (re_close env) ;;;
       registry_del_key kernel_id runner (set_runner None) ;;;
       final_file_stats <- perform (Scandir work_dir) (re_scandir env) ;;
       uploaded_files <-
         (if match rr_options res with
             | Some (Some b) => b
             | _ => true
             end
          then
            r <- registry_get kernel_id ;;
            match initial_file_stats r with
            | None => raise KeyError
            | Some initial_file_stats =>
                fns <- perform (UploadOutputFiles initial_file_stats
                                  final_file_stats (t_entry_id task))
                               (re_upload env) ;;
                ret (map (fun fn => relpath fn work_dir) fns)
            end
          else ret []) ;;
       registry_del_key kernel_id initial_file_stats
         (set_initial_file_stats None) ;;;
       ret uploaded_files
     else ret []) ;;
  cleaned_check <-
    (if String.eqb (rr_status res) "exec-timeout" then
       reg <- container_resgistry ;;
       ret (bool_decide (is_Some (reg !! kernel_id)))
     else ret false) ;;
  (if cleaned_check : bool
   then ensure_future (FDestroyKernel kernel_id "exec-timeout")
   else ret tt) ;;;
  ret (mkResultMap (rr_stdout res) (rr_stderr res) (rr_status res)
         (rr_media res) (rr_html res) (rr_options res) [] uploaded_files None).

(** The function from its first [try] on; [body] is what runs inside it. *)
Definition _execute_code_from (env : resume_env) (task : Task)
           (body : M RunnerResult) : M (option ResultMap) :=
  o <- _execute_code_guarded env task body ;;
  match o with
  | None => ret None
  | Some res => r <- _execute_code_finish env task res ;; ret (Some r)
  end.

(** [match_] is the argument of the [execute_code] call that the current
    task runs; [_execute_code] itself only stores the task. *)
Definition _execute_code (env : execute_env)
           (entry_id kernel_id code_id code_text : string)
           (match_ : option pydict) : M (option ResultMap) :=
  runner <- _execute_code_prepare env kernel_id code_id code_text ;;
  let task := mkTask entry_id kernel_id match_ runner in
  _execute_code_from (ee_resume env) task
    (registry_update kernel_id (set_runner_task (Some task)) ;;;
     perform (RunnerGetNextResult runner 1) (ee_next_result env)).

(** A call suspended in [runner.get_next_result] goes on when the await
    completes with [outcome] ([Raise CancelledError] when the task was
    cancelled). *)
Definition _execute_code_resume (env : resume_env) (task : Task)
           (outcome : result RunnerResult) : M (option ResultMap) :=
  _execute_code_from env task (lift outcome).

(** The two statements of [execute_code] after the await. *)
Definition execute_code_return (match_ : option pydict)
           (res : option ResultMap) : result (option ResultMap) :=
  match match_ with
  | Some (b :: d) =>
      match match_result res (b :: d) with
      | Raise e => Raise e
      | Ok v =>
          match res with
          | None => Raise TypeError
          | Some r =>
              Ok (Some (mkResultMap (stdout r) (stderr r) (status r) (media r)
                          (html r) (options r) (exceptions r) (files r)
                          (Some v)))
          end
      end
  | _ => Ok res
  end.

Definition execute_code (env : execute_env)
           (entry_id kernel_id code_id code : string)
           (match_ : option pydict) : M (option ResultMap) :=
  res <- _execute_code env entry_id kernel_id code_id code match_ ;;
  lift (execute_code_return match_ res).

Definition execute_code_resume (env : resume_env) (task : Task)
           (outcome : result RunnerResult) : M (option ResultMap) :=
  res <- _execute_code_resume env task outcome ;;
  lift (execute_code_return (t_match task) res).

(** **** [_destroy_kernel] and [destroy_kernel] *)

Record destroy_env : Type := mkDestroyEnv {
  (** what the cancelled [execute_code] task meets while it unwinds *)
  de_cancelled : resume_env;
  (** [(await collect_stats([container]))[0]] *)
  de_stats : result (option Stat);
  de_kill : result unit;
}.

Definition _destroy_kernel (env : destroy_env) (kernel_id reason : string)
  : M unit :=
  s <- get ;;
  match container_registry s !! kernel_id with
  | None => ret tt
  | Some r =>
      let cid := container_id r in
      r <- registry_get kernel_id ;;
      match runner_task r with
      | Some runner_task =>
          perform (TaskCancel runner_task) (Ok tt) ;;;
          _ <- execute_code_resume (de_cancelled env) runner_task
                 (Raise CancelledError) ;;
          ret tt
      | None => ret tt
      end ;;;
      try_except
        (last_stat <- perform (CollectStats [cid]) (de_stats env) ;;
         registry_update kernel_id (set_last_stat (Some last_stat)) ;;;
         perform (ContainerKill cid) (de_kill env))
        (fun e =>
           match e with
           | DockerError status message =>
               if (status =? 500) && contains "is not running" message
               then ret tt
               else if status =? 404 then
                 r <- registry_get kernel_id ;;
                 modify (with_cpu_map (free (core_set r))) ;;;
                 registry_del kernel_id
               else ret tt
           | _ => ret tt
           end)
  end.

Definition destroy_kernel (env : destroy_env) (kernel_id : string) : M unit :=
  _destroy_kernel env kernel_id "user-requested".

(** **** [get_extra_volumes] and [_create_kernel] *)

Record VolumeInfo : Type := mkVolumeInfo {
  vol_name : string;
  vol_container_path : string;
  vol_mode : string;
}.

Definition _extra_volumes (lang : string) : list VolumeInfo :=
  if String.eqb lang "python3-tensorflow" then
    [mkVolumeInfo "deeplearning-samples" "/home/work/samples" "ro"]
  else if String.eqb lang "python3-tensorflow-gpu" then
    [mkVolumeInfo "deeplearning-samples" "/home/work/samples" "ro"]
  else [].

(** [avail] holds the names of the volumes the engine lists. *)
Definition get_extra_volumes (avail : result (list string)) (lang : string)
  : M (list VolumeInfo) :=
  avail_volumes <- perform VolumesList avail ;;
  match avail_volumes with
  | [] => ret []
  | _ =>
      ret (filter (fun vol => vol_name vol ∈ avail_volumes)
                  (_extra_volumes lang))
  end.

(** What happens while [_create_kernel] is suspended in
    [restarting_kernels[kernel_id].wait()]: the monitor runs [clean_kernel]
    for the container that died, or nothing sets the event in time. *)
Inductive wait_env : Type :=
| WaitCleaned (cl : clean_env)
| WaitExpired.

Record create_env : Type := mkCreateEnv {
  ce_token : string;
  ce_dispatch : result unit;
  (** [ret['ContainerConfig']['Labels']] of [docker.images.get] *)
  ce_image : result (gmap string string);
  ce_wait : wait_env;
  ce_volumes : result (list string);
  ce_nvidia : result (list string * list pyval);
  ce_create : result string;
  ce_start : result unit;
  ce_port_2000 : result string;
  ce_port_2001 : result string;
  ce_port_2002 : result string;
  ce_port_2003 : result string;
  ce_now : Z;
}.

Definition label (labels : gmap string string) (key default : string)
  : string :=
  match labels !! key with Some v => v | None => default end.

(** The keys of [{k: ... for k in l}], in insertion order. *)
Fixpoint dict_keys (seen l : list string) : list string :=
  match l with
  | [] => []
  | k :: r =>
      if bool_decide (k ∈ seen) then dict_keys seen r
      else k :: dict_keys (k :: seen) r
  end.

Fixpoint join (sep : string) (l : list string) : string :=
  match l with
  | [] => ""
  | [x] => x
  | x :: r => x +:+ sep +:+ join sep r
  end.

(** [with timeout(10): await restarting_kernels[kernel_id].wait()] *)
Definition wait_restarting (w : wait_env) (kernel_id : string) : M unit :=
  s <- get ;;
  match restarting_kernels s !! kernel_id with
  | None => raise KeyError
  | Some true => perform (EventWait kernel_id 10) (Ok tt)
  | Some false =>
      match w with
      | WaitExpired => perform (EventWait kernel_id 10) (Raise TimeoutError)
      | WaitCleaned cl =>
          perform (EventWait kernel_id 10) (Ok tt) ;;;
          (fun s => (Ok tt, snd (clean_kernel cl kernel_id s))) ;;;
          s <- get ;;
          match restarting_kernels s !! kernel_id with
          | Some true => ret tt
          | _ => raise TimeoutError
          end
      end
  end.

(** Lines 240 to 258: the cores of the kernel, kept from the record of a
    kernel that is being restarted, or allocated. *)
Definition _create_kernel_resources (env : create_env)
           (labels : gmap string string) (kernel_id : string)
  : M (Z * CoreSet * Z) :=
  s <- get ;;
  let work_dir := work_dir_of s kernel_id in
  match restarting_kernels s !! kernel_id with
  | Some _ =>
      r <- registry_get kernel_id ;;
      let core_set := core_set r in
      any_core <-
        match elements core_set with
        | c :: _ => ret c
        | [] => raise StopIteration
        end ;;
      let numa_node := node_of_cpu any_core in
      let num_cores := Z.of_nat (size core_set) in
      try_except
        (wait_restarting (ce_wait env) kernel_id)
        (fun e =>
           match e with
           | TimeoutError =>
               _ <- (fun s =>
                       match restarting_kernels s !! kernel_id with
                       | Some _ =>
                           (Ok tt, with_restarting (delete kernel_id) s)
                       | None => (Raise KeyError, s)
                       end) ;;
               ensure_future (FCleanKernel kernel_id) ;;;
               raise TimeoutError
           | _ => raise e
           end) ;;;
      ret (numa_node, core_set, num_cores)
  | None =>
      makedirs work_dir ;;;
      requested_cores <-
        lift (int_of_str (label labels "io.sorna.maxcores" "1")) ;;
      s <- get ;;
      let num_cores := Z.min (num_cores (container_cpu_map s)) requested_cores in
      allocated <-
        (fun s =>
           let '(r, m) := alloc num_cores (container_cpu_map s) in
           (r, with_cpu_map (fun _ => m) s)) ;;
      let '(numa_node, core_set) := allocated in
      ret (numa_node, core_set, num_cores)
  end.

(** Lines 260 to 330: the container is configured, created and started, and
    the record is inserted. *)
Definition _create_kernel_container (env : create_env) (lang : string)
           (kernel_id : string) (labels : gmap string string)
           (version : Z) (mem_limit : string) (exec_timeout : Z)
           (envs_corecount : list string) (resources : Z * CoreSet * Z)
  : M string :=
  let '(numa_node, core_set, num_cores) := resources in
  s <- get ;;
  let work_dir := work_dir_of s kernel_id in
  let image_name := "lablup/kernel-" +:+ lang in
  let envs :=
    map (fun k => (k, pretty num_cores)) (dict_keys [] envs_corecount) in
  mount_list <- get_extra_volumes (ce_volumes env) lang ;;
  let binds :=
    (work_dir +:+ ":/home/work:rw")
      :: map (fun v => vol_name v +:+ ":" +:+ vol_container_path v
                       +:+ ":" +:+ vol_mode v) mount_list in
  let volumes := "/home/work" :: map vol_container_path mount_list in
  extended <-
    (if String.eqb "yes" (label labels "io.sorna.nvidia.enabled" "no") then
       extra <- perform (PrepareNvidia numa_node) (ce_nvidia env) ;;
       let '(extra_binds, extra_devices) := extra in
       ret (binds ++ extra_binds, extra_devices)
     else ret (binds, [])) ;;
  let '(binds, devices) := extended in
  memory <- lift (readable_size_to_bytes mem_limit) ;;
  let config :=
    mkContainerConfig image_name true (dict_keys [] volumes) "SIGINT"
      ["2000/tcp"; "2001/tcp"; "2002/tcp"; "2003/tcp"]
      (map (fun kv => fst kv +:+ "=" +:+ snd kv) envs)
      0 memory
      (join "," (map pretty (merge_sort Nat.le (elements core_set))))
      (pretty numa_node)
      ["seccomp:unconfined"] binds devices true in
  let kernel_name := "kernel." +:+ lang +:+ "." +:+ kernel_id in
  container <- perform (ContainersCreate config kernel_name) (ce_create env) ;;
  perform (ContainerStart container) (ce_start env) ;;;
  repl_in_port <- perform (ContainerPort container 2000) (ce_port_2000 env) ;;
  repl_out_port <- perform (ContainerPort container 2001) (ce_port_2001 env) ;;
  stdin_port <- perform (ContainerPort container 2002) (ce_port_2002 env) ;;
  stdout_port <- perform (ContainerPort container 2003) (ce_port_2003 env) ;;
  let kernel_ip := "127.0.0.1" in
  modify (with_registry (insert kernel_id
    (mkKernelRecord lang version container kernel_ip repl_in_port
       repl_out_port stdin_port stdout_port 1024 numa_node core_set mem_limit
       exec_timeout 0 (ce_now env) None None None None))) ;;;
  ret kernel_id.

(** Lines 222 to 227: the id is drawn, or taken from the caller, and the
    event is dispatched. *)
Definition _create_kernel_announce (env : create_env)
           (kernel_id : option string) : M string :=
  match kernel_id with
  | None | Some EmptyString =>
      let kernel_id := ce_token env in
      s <- get ;;
      match container_registry s !! kernel_id with
      | Some _ => raise AssertionError
      | None =>
          perform (Dispatch (kernel_creating kernel_id)) (ce_dispatch env) ;;;
          ret kernel_id
      end
  | Some kernel_id =>
      perform (Dispatch (kernel_restarting kernel_id)) (ce_dispatch env) ;;;
      ret kernel_id
  end.

Definition _create_kernel (env : create_env) (lang : string)
           (kernel_id : option string) : M string :=
  kernel_id <- _create_kernel_announce env kernel_id ;;
  let image_name := "lablup/kernel-" +:+ lang in
  labels <- perform (ImagesGet image_name) (ce_image env) ;;
  version <- lift (int_of_str (label labels "io.sorna.version" "1")) ;;
  let mem_limit := label labels "io.sorna.maxmem" "128m" in
  exec_timeout <- lift (int_of_str (label labels "io.sorna.timeout" "10")) ;;
  s <- get ;;
  let exec_timeout := Z.min exec_timeout (cfg_exec_timeout (config s)) in
  let envs_corecount := label labels "io.sorna.envs.corecount" "" in
  let envs_corecount :=
    match envs_corecount with
    | EmptyString => []
    | _ => split ","%char envs_corecount
    end in
  resources <- _create_kernel_resources env labels kernel_id ;;
  _create_kernel_container env lang kernel_id labels version mem_limit
    exec_timeout envs_corecount resources.

(** **** [restart_kernel] *)

Record restart_env : Type := mkRestartEnv {
  rs_destroy : destroy_env;
  rs_create : create_env;
}.

Definition restart_kernel (env : restart_env) (kernel_id : string)
  : M (string * string) :=
  modify (with_restarting (insert kernel_id false)) ;;;
  _destroy_kernel (rs_destroy env) kernel_id "restarting" ;;;
  r <- registry_get kernel_id ;;
  let lang := lang r in
  _create_kernel (rs_create env) lang (Some kernel_id) ;;;
  modify (with_restarting (delete kernel_id)) ;;;
  r <- registry_get kernel_id ;;
  let stdin_port := stdin_port r in
  r <- registry_get kernel_id ;;
  let stdout_port := stdout_port r in
  ret (stdin_port, stdout_port).

End Agent.

(** *** Vocabulary of the statements *)

(** The coroutines scheduled so far, oldest first. *)
Definition scheduled (s : State) : list future :=
  omap (fun c => match c with EnsureFuture f => Some f | _ => None end)
       (trace s).

(** The calls made to the container engine to create a container. *)
Definition created (s : State) : list string :=
  omap (fun c => match c with ContainersCreate _ n => Some n | _ => None end)
       (trace s).

(** The upstream events dispatched so far. *)
Definition dispatched (s : State) : list event :=
  omap (fun c => match c with Dispatch ev => Some ev | _ => None end)
       (trace s).

(** The keys of a record that are written once, when it is inserted. *)
Definition fixed_part (r : KernelRecord) :=
  (lang r, version r, container_id r, container_ip r,
   (repl_in_port r, repl_out_port r, stdin_port r, stdout_port r),
   (cpu_shares r, numa_node r, core_set r, mem_limit r, exec_timeout r)).

(** Same registered ids with the same fixed parts, same allocator, same
    tables, same directories. *)
Definition keeps_kernels (s s' : State) : Prop :=
  config s' = config s
  /\ container_cpu_map s' = container_cpu_map s
  /\ restarting_kernels s' = restarting_kernels s
  /\ blocking_cleans s' = blocking_cleans s
  /\ directories s' = directories s
  /\ forall k,
       match container_registry s !! k, container_registry s' !! k with
       | Some r, Some r' => fixed_part r' = fixed_part r
       | None, None => True
       | _, _ => False
       end.

(** The [except DockerError] clause of [_destroy_kernel] sees status 404:
    the first call of the [try] that raises does so with that status. *)
Definition kill_not_found (env : destroy_env) : bool :=
  match de_stats env with
  | Raise (DockerError status _) => status =? 404
  | Raise _ => false
  | Ok _ =>
      match de_kill env with
      | Raise (DockerError status _) => status =? 404
      | _ => false
      end
  end.

(** A match specification that lacks a key, or whose operator, target or
    value is not an admitted one. *)
Definition valid_op (v : pyval) : Prop :=
  v = PStr "contains" \/ v = PStr "equal" \/ v = PStr "regex".

Definition valid_target (v : pyval) : Prop :=
  v = PStr "stdout" \/ v = PStr "stderr" \/ v = PStr "exception".

Definition is_str (v : pyval) : Prop := exists x, v = PStr x.

Definition malformed (match_ : pydict) : Prop :=
  match dict_get match_ "op", dict_get match_ "target",
        dict_get match_ "value" with
  | Some op, Some target, Some value =>
      ~ valid_op op \/ ~ valid_target target \/ ~ is_str value
  | _, _, _ => True
  end.

(** Every core of the record lies on the node the record names. *)
Definition numa_consistent `{HostLib} (r : KernelRecord) : Prop :=
  forall c, c ∈ core_set r -> node_of_cpu c = numa_node r.

(** The id [_create_kernel] works with. *)
Definition effective_id (env : create_env) (kernel_id : option string)
  : string :=
  match kernel_id with
  | None | Some EmptyString => ce_token env
  | Some k => k
  end.

(** The engine answered: the call returned or raised a [DockerError]. *)
Definition answered {A} (r : result A) : Prop :=
  match r with
  | Ok _ | Raise (DockerError _ _) => True
  | Raise _ => False
  end.

(** The runner takes the code: the existing one is fed, or a new one is
    started after the work directory was scanned. *)
Definition prepare_ok (env : execute_env) (r : KernelRecord) : Prop :=
  match runner r with
  | Some _ => ee_feed_input env = Ok tt
  | None => (exists st, ee_scandir env = Ok st) /\ ee_start env = Ok tt
  end.

(** Closing the runner, scanning the work directory and uploading work. *)
Definition resume_ok (env : resume_env) : Prop :=
  re_close env = Ok tt
  /\ (exists st, re_scandir env = Ok st)
  /\ (exists fns, re_upload env = Ok fns).

(** [m] relates every state to the one it leaves. *)
Definition preserves {A} (R : State -> State -> Prop) (m : M A) : Prop :=
  forall s, R s (snd (m s)).

(** The log only grows. *)
Definition trace_grows (s s' : State) : Prop :=
  exists rest, trace s' = trace s ++ rest.

(** Nothing is scheduled. *)
Definition schedules_nothing (s s' : State) : Prop :=
  scheduled s' = scheduled s.

(** The allocator is left alone. *)
Definition keeps_cpu_map (s s' : State) : Prop :=
  container_cpu_map s' = container_cpu_map s.

End Server.

(** ** A host, a state and environments for the examples *)

Module Samples.
Import Server.

(** The integers this host reads: non-empty runs of the digits 0 to 9. *)
Definition is_digit (c : ascii) : bool :=
  let n := nat_of_ascii c in (48 <=? n)%nat && (n <=? 57)%nat.

Fixpoint int_digits (acc : Z) (s : string) : option Z :=
  match s with
  | EmptyString => Some acc
  | String c r =>
      if is_digit c
      then int_digits (10 * acc + Z.of_nat (nat_of_ascii c - 48)) r
      else None
  end.

Definition int (s : string) : result Z :=
  match s with
  | EmptyString => Raise (ValueError "invalid literal for int()")
  | _ => match int_digits 0 s with
         | Some z => Ok z
         | None => Raise (ValueError "invalid literal for int()")
         end
  end.

(** Patterns are literal, with an optional leading [^]; sizes are in
    megabytes ([128m]); cores are numbered node by node, four to a node. *)
Definition host : HostLib := {|
  re_search pattern content :=
    match pattern with
    | String "^"%char p => Ok (String.prefix p content)
    | _ => Ok (contains pattern content)
    end;
  int_of_str := int;
  node_of_cpu c := Z.of_nat (c / 4);
  readable_size_to_bytes x :=
    match int (rstrip (fun c => Ascii.eqb c "m"%char) x) with
    | Ok n => Ok (n * 1048576)
    | Raise e => Raise e
    end;
  relpath fn start := string_drop (S (String.length start)) fn;
|}.

Definition cfg : Config := mkConfig 180 600 "/var/lib/sorna-volumes".

(** One kernel, [k1], on cores 0 and 1 of node 0. *)
Definition rec1 : KernelRecord :=
  mkKernelRecord "python3" 1 "c1" "127.0.0.1" "32768" "32769" "32770" "32771"
    1024 0 {[0%nat; 1%nat]} "128m" 10 0 0 None None None None.

Definition cpu_map0 : CPUAllocMap :=
  mkCPUAllocMap [(0, [0; 1; 2; 3]%nat); (1, [4; 5; 6; 7]%nat)]
    {[2%nat; 3%nat; 4%nat; 5%nat; 6%nat; 7%nat]}.

Definition s0 : State :=
  mkState cfg {["k1" := rec1]} cpu_map0 ∅ ∅
    {["/var/lib/sorna-volumes/k1"]} [].

(** [k1] is being restarted. *)
Definition s0_restarting : State :=
  with_restarting (insert "k1" false) s0.

Definition resume_ok : resume_env := mkResumeEnv (Ok tt) (Ok []) (Ok []).

Definition destroy_ok : destroy_env := mkDestroyEnv resume_ok (Ok None) (Ok tt).

Definition destroy_404 : destroy_env :=
  mkDestroyEnv resume_ok (Ok None)
    (Raise (DockerError 404 "No such container: c1")).

Definition clean_ok : clean_env := mkCleanEnv (Ok tt) (Ok tt).

Definition create_ok (w : wait_env) : create_env :=
  mkCreateEnv "k2" (Ok tt) (Ok ∅) w (Ok []) (Ok ([], [])) (Ok "c2") (Ok tt)
    (Ok "32772") (Ok "32773") (Ok "32774") (Ok "32775") 7.

(** The engine refuses to create the container. *)
Definition create_refused : create_env :=
  mkCreateEnv "k2" (Ok tt) (Ok ∅) WaitExpired (Ok []) (Ok ([], []))
    (Raise (DockerError 500 "server error")) (Ok tt)
    (Ok "32772") (Ok "32773") (Ok "32774") (Ok "32775") 7.

Definition restart_ok : restart_env :=
  mkRestartEnv destroy_ok (create_ok (WaitCleaned clean_ok)).

(** The engine no longer knows the container of [k1]. *)
Definition restart_404 : restart_env :=
  mkRestartEnv destroy_404 (create_ok (WaitCleaned clean_ok)).

Definition result_of (status : string) : RunnerResult :=
  mkRunnerResult "hello world" "" status [] [] None.

Definition execute_with (o : result RunnerResult) : execute_env :=
  mkExecuteEnv 5 (Ok tt) (Ok []) (Ok tt) o resume_ok.

Definition match_regex : pydict :=
  [("op", PStr "regex"); ("target", PStr "stdout"); ("value", PStr "^hello")].

Definition match_exception : pydict :=
  [("op", PStr "equal"); ("target", PStr "exception");
   ("value", PStr "NameError")].

Definition match_bad_op : pydict :=
  [("op", PStr "startswith"); ("target", PStr "stdout");
   ("value", PStr "hello")].

(** The tables of the examples: the characters of ASCII, the letter U+00E9
    and the Arabic-Indic digits U+0660 to U+0669, with the limit on the
    digits of an integer that Python 3.11 starts with. *)
Definition unicode : Utils.Unicode.
Proof.
  refine {|
    Utils.uc_word c :=
      Utils.ascii_word c || (c =? 233)%N
      || ((1632 <=? c)%N && (c <=? 1641)%N);
    Utils.uc_digit c :=
      Utils.ascii_digit c || ((1632 <=? c)%N && (c <=? 1641)%N);
    Utils.uc_value c :=
      if Utils.ascii_digit c then Z.of_N c - 48 else Z.of_N c - 1632;
    Utils.int_max_str_digits := Some 4300%nat;
  |}.
  - intros c Hc.
    destruct (N.eqb_spec c 233) as [->|_]; [lia|].
    destruct (N.leb_spec 1632 c) as [?|_]; [lia|].
    rewrite !orb_false_r. reflexivity.
  - intros c Hc.
    destruct (N.leb_spec 1632 c) as [?|_]; [lia|].
    rewrite orb_false_r. reflexivity.
  - intros c Hc. unfold Utils.ascii_word.
    destruct (Utils.ascii_digit c); [reflexivity|].
    simpl in Hc. rewrite Hc. apply orb_true_r.
  - intros c Hc. rewrite Hc. reflexivity.
  - intros c Hc. unfold Utils.ascii_digit in *.
    destruct (N.leb_spec 48 c), (N.leb_spec c 57); simpl in *; try lia.
    all: destruct (N.leb_spec 1632 c), (N.leb_spec c 1641);
      simpl in *; try discriminate; lia.
  - intros n [= <-]. apply Nat.leb_le. vm_compute. reflexivity.
Defined.

End Samples.

(** * Properties *)

(** ** [parse_service_ports] *)

Section ParseServicePorts.
Import Utils.
Context `{Unicode}.

Lemma span_nonempty_source p s c a b :
  span p s = (c :: a, b) -> s <> [].
Proof. destruct s; simpl; [discriminate | discriminate]. Qed.

Lemma rx_search_shape s m :
  rx_search s = Some m ->
  s <> [] /\ g_name m <> [] /\ (0 < length (group0 m))%nat.
Proof.
  unfold rx_search.
  destruct (span uc_word s) as [nm r1] eqn:E1.
  destruct nm as [|c nm]; [discriminate|].
  destruct r1 as [|c1 r2]; [discriminate|].
  destruct (c1 =? ord ":")%N; [|discriminate].
  destruct (span uc_word r2) as [pr r3].
  destruct pr as [|c2 pr]; [discriminate|].
  destruct r3 as [|c3 r4]; [discriminate|].
  destruct (c3 =? ord ":")%N; [|discriminate].
  destruct (rx_ports r4) as [[ps r5]|]; [|discriminate].
  destruct (rx_terminator r5) as [t|]; [|discriminate].
  intros [= <-]; simpl. split; [|split; [discriminate | lia]].
  eapply span_nonempty_source; eassumption.
Qed.

Lemma rx_search_rest_shorter s m :
  rx_search s = Some m ->
  (length (drop (length (group0 m)) s) < length s)%nat.
Proof.
  intros Hm. destruct (rx_search_shape _ _ Hm) as (Hs & _ & Hg).
  rewrite length_drop. destruct s; [contradiction|]. simpl in *. lia.
Qed.

Lemma scan_entries_empty fuel : scan_entries fuel [] = [].
Proof. destruct fuel; reflexivity. Qed.

(** The loop does what [take_entries] does with the entries that are not
    skipped, and never runs out of fuel. *)
Lemma parse_loop_take_entries fuel : forall s items used,
  (length s < fuel)%nat ->
  parse_loop fuel s items used
  = Some (take_entries (filter (fun m => non_pty m = true)
                               (scan_entries fuel s)) items used).
Proof.
  induction fuel as [|fuel IH]; intros s items used Hlen; [lia|].
  simpl. destruct (rx_search s) as [m|] eqn:Hm; [|reflexivity].
  pose proof (rx_search_rest_shorter _ _ Hm) as Hshort.
  destruct (rx_search_shape _ _ Hm) as (_ & Hname & _).
  rewrite (bool_decide_eq_false_2 _ Hname).
  destruct (bool_decide (g_proto m = lit "pty")) eqn:Hpty.
  - rewrite filter_cons_False by (unfold non_pty; rewrite Hpty; discriminate).
    apply IH; lia.
  - rewrite filter_cons_True by (unfold non_pty; rewrite Hpty; reflexivity).
    simpl. rewrite (bool_decide_eq_false_2 _ Hname).
    destruct (negb _); [reflexivity|].
    destruct (ports_of m) as [ports|e]; [|reflexivity].
    destruct (check_ports ports used) as [used'|e]; [|reflexivity].
    destruct (decide (drop (length (group0 m)) s = [])) as [Hrest|Hrest].
    + rewrite (bool_decide_eq_true_2 _ Hrest), Hrest, scan_entries_empty.
      reflexivity.
    + rewrite (bool_decide_eq_false_2 _ Hrest). apply IH; lia.
Qed.

Lemma check_ports_outcome ports : forall used,
  match check_ports ports used with
  | Ok used' =>
      used' = list_to_set ports ∪ used /\ NoDup ports
      /\ forall p, p ∈ ports -> p ∉ used /\ 1024 < p /\ ~ reserved_port p
  | Raise e => (exists msg, e = ValueError msg)
  end.
Proof.
  induction ports as [|p ports IH]; intros used; simpl.
  - split; [set_solver|]. split; [constructor|]. intros p Hp. inversion Hp.
  - case_bool_decide as Hused; [eauto|].
    destruct (Z.leb_spec p 1024) as [Hle|Hgt]; [eauto|].
    case_bool_decide as Hres; [eauto|].
    specialize (IH ({[p]} ∪ used)).
    destruct (check_ports ports ({[p]} ∪ used)) as [used'|e]; [|exact IH].
    destruct IH as (-> & Hnd & Hall). split; [set_solver|]. split.
    + constructor; [|exact Hnd]. intros Hin.
      destruct (Hall _ Hin) as (Hnot & _). set_solver.
    + intros q Hq. apply elem_of_cons in Hq as [->|Hq].
      * unfold reserved_port. auto.
      * destruct (Hall _ Hq) as (Hnot & ? & ?). split; [set_solver|auto].
Qed.

Lemma int_outcome x :
  match int x with
  | Ok _ => True
  | Raise e => (exists msg, e = ValueError msg)
  end.
Proof.
  unfold int. destruct x as [|c x]; [eauto|].
  destruct (int_digits 0 (c :: x)); [|eauto].
  destruct int_max_str_digits as [limit|]; [|exact I].
  destruct (limit <? length (c :: x))%nat; [eauto | exact I].
Qed.

Lemma map_int_outcome l :
  match map_int l with
  | Ok _ => True
  | Raise e => (exists msg, e = ValueError msg)
  end.
Proof.
  induction l as [|x l IH]; simpl; [exact I|].
  pose proof (int_outcome x) as Hx.
  destruct (int x); [|exact Hx].
  destruct (map_int l); [exact I | exact IH].
Qed.

Lemma take_entries_outcome es : forall items used,
  match take_entries es items used with
  | Ok items' =>
      map name items' = map name items ++ map g_name es
      /\ NoDup (concat (map entry_ports es))
      /\ forall p, p ∈ concat (map entry_ports es) ->
                   p ∉ used /\ 1024 < p /\ ~ reserved_port p
  | Raise e => (exists msg, e = ValueError msg)
  end.
Proof.
  induction es as [|m es IH]; intros items used; simpl.
  - rewrite app_nil_r. split; [reflexivity|]. split; [constructor|].
    intros p Hp. inversion Hp.
  - destruct (bool_decide (g_name m = [])); [eauto|].
    destruct (negb _); [eauto|].
    assert (entry_ports m
            = match ports_of m with Ok ps => ps | Raise _ => [] end) as ->
        by reflexivity.
    pose proof (map_int_outcome
                  (split (ord ",") (strip is_bracket (g_ports m)))) as Hint.
    fold (ports_of m) in Hint.
    destruct (ports_of m) as [ports|e]; [clear Hint|exact Hint].
    pose proof (check_ports_outcome ports used) as Hck.
    destruct (check_ports ports used) as [used'|e]; [|exact Hck].
    destruct Hck as (-> & Hnd & Hall).
    specialize (IH (items ++ [mkServicePort (g_name m) (protocol_of (g_proto m))
                                ports (replicate (length ports) None)])
                   (list_to_set ports ∪ used)).
    destruct (take_entries es _ _) as [items'|e]; [|exact IH].
    destruct IH as (Hnames & Hnd' & Hall'). split; [|split].
    + rewrite Hnames, map_app. simpl. rewrite <- app_assoc. reflexivity.
    + apply NoDup_app. split; [exact Hnd|]. split; [|exact Hnd'].
      intros p Hp Hp'. destruct (Hall' _ Hp') as (Hnot & _).
      apply Hnot. apply elem_of_union_l, elem_of_list_to_set. exact Hp.
    + intros p Hp. apply elem_of_app in Hp as [Hp|Hp].
      * apply Hall; exact Hp.
      * destruct (Hall' _ Hp) as (Hnot & ? & ?). split; [set_solver|auto].
Qed.

Lemma declared_ports_unfold s :
  declared_ports s = concat (map entry_ports (accepted_entries s)).
Proof. reflexivity. Qed.

Lemma parse_service_ports_take_entries s :
  parse_service_ports s = Some (take_entries (accepted_entries s) [] ∅).
Proof.
  unfold parse_service_ports, accepted_entries, entries.
  apply parse_loop_take_entries. lia.
Qed.

(** C10. [parse_service_ports] returns a list of service ports or raises
    [ValueError], on every input and with any tables of characters and any
    limit on the digits of an integer. It raises [ValueError] whenever a port
    declared by an entry that is not skipped is at most 1024 or is one of
    2000 to 2003, and whenever such entries declare a port twice. Entries
    with protocol [pty] are skipped: the outcome is the one of the other
    entries alone, and the names returned are theirs. *)
Theorem parse_service_ports_checked (s : str) :
  ((exists items, parse_service_ports s = Some (Ok items))
   \/ is_value_error (parse_service_ports s))
  /\ ((exists p, p ∈ declared_ports s /\ (p <= 1024 \/ reserved_port p))
      -> is_value_error (parse_service_ports s))
  /\ (~ NoDup (declared_ports s) -> is_value_error (parse_service_ports s))
  /\ parse_service_ports s = Some (take_entries (accepted_entries s) [] ∅)
  /\ (forall items, parse_service_ports s = Some (Ok items) ->
                    map name items = map g_name (accepted_entries s)).
Proof.
  rewrite parse_service_ports_take_entries, declared_ports_unfold.
  pose proof (take_entries_outcome (accepted_entries s) [] ∅) as Hout.
  unfold is_value_error.
  destruct (take_entries (accepted_entries s) [] ∅) as [items|e].
  - destruct Hout as (Hnames & Hnd & Hall). repeat split.
    + left. eauto.
    + intros (p & Hp & Hbad). destruct (Hall _ Hp) as (_ & Hgt & Hres).
      destruct Hbad as [Hle|Hr]; [lia | contradiction].
    + intros Hdup. contradiction.
    + intros items' [= <-]. exact Hnames.
  - destruct Hout as (msg & ->). repeat split; eauto.
    intros items [=].
Qed.

End ParseServicePorts.

Lemma parse_service_ports_checked_witness :
  Utils.is_value_error
    (@Utils.parse_service_ports Samples.unicode
       (Utils.lit "caf" ++ [233%N] ++ Utils.lit ":http:8080,sh:pty:22,ssh:tcp:"
        ++ [1634%N; 1634%N])).
Proof.
  apply (proj1 (proj2 (@parse_service_ports_checked Samples.unicode _))).
  exists 22. split; [|left; lia].
  vm_compute. apply list_elem_of_In. simpl. auto.
Defined.

(** ** The agent *)

Section AgentFacts.
Import Server.
Context `{HostLib}.
Local Open Scope agent_scope.

(** *** Running a method step by step *)

Lemma bind_unfold {A B} (m : M A) (k : A -> M B) s :
  bind m k s = match m s with
               | (Ok a, s') => k a s'
               | (Raise e, s') => (Raise e, s')
               end.
Proof. reflexivity. Qed.

Lemma bind_get {B} (k : State -> M B) s : bind get k s = k s s.
Proof. reflexivity. Qed.

Lemma bind_ret {A B} (a : A) (k : A -> M B) s : bind (ret a) k s = k a s.
Proof. reflexivity. Qed.

Lemma bind_raise {A B} e (k : A -> M B) s :
  bind (raise e) k s = (Raise e, s).
Proof. reflexivity. Qed.

Lemma bind_modify {B} f (k : unit -> M B) s :
  bind (modify f) k s = k tt (f s).
Proof. reflexivity. Qed.

Lemma bind_lift {A B} (r : result A) (k : A -> M B) s :
  bind (lift r) k s
  = match r with Ok a => k a s | Raise e => (Raise e, s) end.
Proof. destruct r; reflexivity. Qed.

Lemma bind_perform {A B} c (o : result A) (k : A -> M B) s :
  bind (perform c o) k s
  = match o with
    | Ok a => k a (with_trace (fun t => t ++ [c]) s)
    | Raise e => (Raise e, with_trace (fun t => t ++ [c]) s)
    end.
Proof. destruct o; reflexivity. Qed.

Lemma bind_registry_get {B} kid (k : KernelRecord -> M B) s :
  bind (registry_get kid) k s
  = match container_registry s !! kid with
    | Some r => k r s
    | None => (Raise KeyError, s)
    end.
Proof.
  unfold bind, registry_get.
  destruct (container_registry s !! kid); reflexivity.
Qed.

Lemma bind_bind {A B C} (m : M A) (k : A -> M B) (k' : B -> M C) s :
  bind (bind m k) k' s = bind m (fun a => bind (k a) k') s.
Proof. unfold bind. destruct (m s) as [[a|e] s1]; reflexivity. Qed.

Ltac unfold_m :=
  unfold registry_update, registry_del, registry_del_key, ensure_future in *;
  unfold bind, try_except, try_finally, registry_get, perform, get, modify,
    lift, ret, raise in *.

(** Runs a method on a state as far as the hypotheses decide its calls. *)
Ltac run :=
  repeat (simpl; rewrite ?lookup_insert_eq; simpl;
          try match goal with
              | H : ?x = _ |- context [?x] => rewrite H
              end).

Ltac grows_leaf :=
  unfold trace_grows; simpl; eexists; rewrite <- ?app_assoc;
  first [reflexivity | symmetry; apply app_nil_r].

Ltac sched_leaf :=
  unfold scheduled; simpl; rewrite ?omap_app; simpl; rewrite ?app_nil_r;
  reflexivity.

(** *** Relations that a method keeps *)

Section Preserves.
Context (R : State -> State -> Prop) `{!Reflexive R} `{!Transitive R}.

Lemma preserves_ret {A} (a : A) : preserves R (ret a).
Proof. intros s; simpl; reflexivity. Qed.

Lemma preserves_raise {A} e : preserves R (@raise A e).
Proof. intros s; simpl; reflexivity. Qed.

Lemma preserves_lift {A} (r : result A) : preserves R (lift r).
Proof. intros s; simpl; reflexivity. Qed.

Lemma preserves_get : preserves R get.
Proof. intros s; simpl; reflexivity. Qed.

Lemma preserves_registry_get k : preserves R (registry_get k).
Proof. intros s; unfold registry_get; case_match; simpl; reflexivity. Qed.

Lemma preserves_bind {A B} (m : M A) (k : A -> M B) :
  preserves R m -> (forall a, preserves R (k a)) -> preserves R (bind m k).
Proof.
  intros Hm Hk s. unfold bind. specialize (Hm s).
  destruct (m s) as [[a|e] s']; simpl in *; [|exact Hm].
  etransitivity; [exact Hm | apply Hk].
Qed.

Lemma preserves_bind_raise {A B} e (k : A -> M B) :
  preserves R (bind (raise e) k).
Proof. intros s; simpl; reflexivity. Qed.

Lemma preserves_bind_ret {A B} (a : A) (k : A -> M B) :
  preserves R (k a) -> preserves R (bind (ret a) k).
Proof. intros Hk s. apply Hk. Qed.

Lemma preserves_bind_assoc {A B C} (m : M A) (k : A -> M B) (k' : B -> M C) :
  preserves R (bind m (fun a => bind (k a) k')) ->
  preserves R (bind (bind m k) k').
Proof. intros Hm s. rewrite bind_bind. apply Hm. Qed.

Lemma preserves_try_except {A} (m : M A) h :
  preserves R m -> (forall e, preserves R (h e)) ->
  preserves R (try_except m h).
Proof.
  intros Hm Hh s. unfold try_except. specialize (Hm s).
  destruct (m s) as [[a|e] s']; simpl in *; [exact Hm|].
  etransitivity; [exact Hm | apply Hh].
Qed.

Lemma preserves_try_finally {A} (m : M A) f :
  preserves R m -> preserves R f -> preserves R (try_finally m f).
Proof.
  intros Hm Hf s. unfold try_finally. specialize (Hm s).
  destruct (m s) as [r s']; simpl in *. specialize (Hf s').
  destruct (f s') as [[[]|e] s'']; simpl in *; etransitivity; eauto.
Qed.

Lemma preserves_modify f : (forall s, R s (f s)) -> preserves R (modify f).
Proof. intros Hf s; simpl; apply Hf. Qed.

Lemma preserves_perform {A} c (o : result A) :
  (forall s, R s (with_trace (fun t => t ++ [c]) s)) ->
  preserves R (perform c o).
Proof. intros Hf s; simpl; apply Hf. Qed.

End Preserves.

#[local] Instance keeps_kernels_refl : Reflexive keeps_kernels.
Proof.
  intros s. unfold keeps_kernels. repeat split.
  intros k. destruct (container_registry s !! k); done.
Qed.

#[local] Instance keeps_kernels_trans : Transitive keeps_kernels.
Proof.
  intros s1 s2 s3 (C1 & A1 & B1 & D1 & E1 & F1) (C2 & A2 & B2 & D2 & E2 & F2).
  unfold keeps_kernels. repeat split; try congruence.
  intros k. specialize (F1 k). specialize (F2 k).
  destruct (container_registry s1 !! k), (container_registry s2 !! k),
    (container_registry s3 !! k); try done. congruence.
Qed.

Lemma keeps_with_trace f s : keeps_kernels s (with_trace f s).
Proof.
  unfold keeps_kernels; simpl. repeat split.
  intros k. destruct (container_registry s !! k); done.
Qed.

Lemma keeps_registry_update k f :
  (forall r, fixed_part (f r) = fixed_part r) ->
  preserves keeps_kernels (registry_update k f).
Proof.
  intros Hf s. unfold_m.
  destruct (container_registry s !! k) as [r|] eqn:Hk; simpl; [|reflexivity].
  unfold keeps_kernels; simpl. repeat split. intros k'.
  destruct (decide (k = k')) as [<-|Hne].
  - rewrite lookup_insert_eq, Hk. apply Hf.
  - rewrite lookup_insert_ne by done.
    destruct (container_registry s !! k'); done.
Qed.

Lemma keeps_registry_del_key {X} k (proj : KernelRecord -> option X) clear :
  (forall r, fixed_part (clear r) = fixed_part r) ->
  preserves keeps_kernels (registry_del_key k proj clear).
Proof.
  intros Hf s. unfold_m.
  destruct (container_registry s !! k) as [r|] eqn:Hk; simpl; [|reflexivity].
  destruct (proj r); simpl; [|reflexivity].
  unfold keeps_kernels; simpl. repeat split. intros k'.
  destruct (decide (k = k')) as [<-|Hne].
  - rewrite lookup_insert_eq, Hk. apply Hf.
  - rewrite lookup_insert_ne by done.
    destruct (container_registry s !! k'); done.
Qed.

Ltac keeps :=
  repeat first
    [ assumption
    | exact keeps_kernels_refl
    | exact keeps_kernels_trans
    | apply preserves_ret | apply preserves_raise | apply preserves_lift
    | apply preserves_get | apply preserves_registry_get
    | apply preserves_perform; intros; apply keeps_with_trace
    | apply keeps_registry_update; intros; reflexivity
    | apply keeps_registry_del_key; intros; reflexivity
    | apply preserves_bind | apply preserves_try_except
    | apply preserves_try_finally
    | progress intros
    | progress case_match ].

Lemma keeps_execute_code_from env task body :
  preserves keeps_kernels body ->
  preserves keeps_kernels (_execute_code_from env task body).
Proof.
  intros Hb. unfold _execute_code_from, _execute_code_guarded,
    _execute_code_finish, container_resgistry, ensure_future.
  keeps.
Qed.

Lemma keeps_execute_code_resume env task o :
  preserves keeps_kernels (execute_code_resume env task o).
Proof.
  unfold execute_code_resume, _execute_code_resume.
  apply preserves_bind; try exact _.
  - apply keeps_execute_code_from. keeps.
  - keeps.
Qed.

Lemma keeps_lookup s s' k r :
  keeps_kernels s s' -> container_registry s !! k = Some r ->
  exists r', container_registry s' !! k = Some r'
             /\ fixed_part r' = fixed_part r.
Proof.
  intros (_ & _ & _ & _ & _ & Hk) Hr. specialize (Hk k). rewrite Hr in Hk.
  destruct (container_registry s' !! k) as [r'|]; [eauto | contradiction].
Qed.

Lemma fixed_part_core_set r r' :
  fixed_part r' = fixed_part r -> core_set r' = core_set r.
Proof. unfold fixed_part. intros [=]. assumption. Qed.

Lemma fixed_part_numa_node r r' :
  fixed_part r' = fixed_part r -> numa_node r' = numa_node r.
Proof. unfold fixed_part. intros [=]. assumption. Qed.

Lemma schedules_nothing_refl : Reflexive schedules_nothing.
Proof. intros s. reflexivity. Qed.

Lemma schedules_nothing_trans : Transitive schedules_nothing.
Proof. intros s1 s2 s3. unfold schedules_nothing. congruence. Qed.

Lemma schedules_registry_update k f :
  preserves schedules_nothing (registry_update k f).
Proof.
  intros s. unfold_m. destruct (container_registry s !! k); reflexivity.
Qed.

Lemma schedules_registry_del_key {X} k (proj : KernelRecord -> option X)
      clear :
  preserves schedules_nothing (registry_del_key k proj clear).
Proof.
  intros s. unfold_m. destruct (container_registry s !! k) as [r|];
    [|reflexivity]. simpl. destruct (proj r); reflexivity.
Qed.

Lemma schedules_perform {A} c (o : result A) :
  match c with EnsureFuture _ => False | _ => True end ->
  preserves schedules_nothing (perform c o).
Proof.
  intros Hc s. unfold schedules_nothing, scheduled. simpl.
  rewrite omap_app. simpl. destruct c; try contradiction; simpl;
    apply app_nil_r.
Qed.

Ltac sched_with tac :=
  repeat first
    [ assumption
    | tac
    | exact schedules_nothing_refl
    | exact schedules_nothing_trans
    | apply preserves_ret | apply preserves_raise | apply preserves_lift
    | apply preserves_get | apply preserves_registry_get
    | apply schedules_perform; exact I
    | apply schedules_registry_update
    | apply schedules_registry_del_key
    | apply preserves_bind_raise
    | apply preserves_bind_ret
    | apply preserves_bind | apply preserves_try_except
    | apply preserves_try_finally
    | progress intros
    | progress case_match ].

Ltac sched := sched_with fail.

(** *** [_destroy_kernel] *)

(** Unless the kill is answered with 404, [_destroy_kernel] keeps every
    record and the allocator; when it is, and the method returns, the record
    is gone and its cores are free. *)
Lemma destroy_kernel_cases env kid reason s :
  let s' := snd (_destroy_kernel env kid reason s) in
  (kill_not_found env = false -> keeps_kernels s s')
  /\ (forall r, container_registry s !! kid = Some r ->
                kill_not_found env = true ->
                fst (_destroy_kernel env kid reason s) = Ok tt ->
                container_registry s' !! kid = None
                /\ container_cpu_map s'
                   = free (core_set r) (container_cpu_map s)).
Proof.
  cbv zeta. unfold _destroy_kernel. rewrite bind_get.
  destruct (container_registry s !! kid) as [r|] eqn:Hr.
  2:{ simpl. split; [reflexivity | intros; congruence]. }
  rewrite bind_registry_get, Hr. rewrite bind_unfold.
  match goal with
  | |- context [ (match runner_task r with
                  | Some t => @?a t
                  | None => ?b
                  end) s ] =>
      set (m1 := match runner_task r with Some t => a t | None => b end)
  end.
  assert (preserves keeps_kernels m1) as Hm1.
  { subst m1. destruct (runner_task r); keeps. }
  specialize (Hm1 s). destruct (m1 s) as [[[]|e] s1]; simpl in Hm1.
  2:{ simpl. split; [auto | intros; congruence]. }
  destruct (keeps_lookup _ _ _ _ Hm1 Hr) as (r1 & Hr1 & Hfix).
  apply fixed_part_core_set in Hfix.
  unfold try_except. rewrite bind_perform.
  unfold kill_not_found.
  assert (forall f x g, keeps_kernels s
            (with_trace f (with_registry (insert kid (set_last_stat x r1))
                                         (with_trace g s1)))) as Hleaf.
  { intros f x g. etransitivity; [exact Hm1|].
    unfold keeps_kernels; simpl. repeat split. intros k.
    destruct (decide (kid = k)) as [<-|Hne].
    - rewrite lookup_insert_eq, Hr1. reflexivity.
    - rewrite lookup_insert_ne by done.
      destruct (container_registry s1 !! k); done. }
  assert (forall g, keeps_kernels s (with_trace g s1)) as Hleaf'.
  { intros g. etransitivity; [exact Hm1 | apply keeps_with_trace]. }
  destruct Hm1 as (_ & Hcpu & _).
  destruct (de_stats env) as [st|e1].
  - unfold registry_update. rewrite bind_bind, bind_registry_get. simpl.
    rewrite Hr1, bind_modify. unfold perform. simpl.
    destruct (de_kill env) as [[]|e2]; simpl; [split; [auto | discriminate]|].
    destruct e2; simpl; try (split; [auto | discriminate]).
    destruct (Z.eqb_spec status0 500) as [->|H500]; simpl.
    { destruct (contains _ _); simpl; (split; [auto | discriminate]). }
    destruct (Z.eqb_spec status0 404) as [->|H404]; simpl;
      [|split; [auto | discriminate]].
    split; [discriminate|]. intros r0 [= <-] _ _.
    rewrite bind_registry_get. simpl. rewrite lookup_insert_eq.
    rewrite bind_modify. unfold registry_del.
    rewrite bind_registry_get. simpl. rewrite lookup_insert_eq. simpl.
    rewrite lookup_delete_eq. split; [reflexivity|]. congruence.
  - simpl. destruct e1; simpl; try (split; [auto | discriminate]).
    destruct (Z.eqb_spec status0 500) as [->|H500]; simpl.
    { destruct (contains _ _); simpl; (split; [auto | discriminate]). }
    destruct (Z.eqb_spec status0 404) as [->|H404]; simpl;
      [|split; [auto | discriminate]].
    split; [discriminate|]. intros r0 [= <-] _ _.
    rewrite bind_registry_get. simpl. rewrite Hr1.
    rewrite bind_modify. unfold registry_del.
    rewrite bind_registry_get. simpl. rewrite Hr1. simpl.
    rewrite lookup_delete_eq. split; [reflexivity|]. congruence.
Qed.

(** *** [clean_kernel] *)

(** The first [try] of [clean_kernel] only adds to the log; it raises only
    what the engine raised, and never a [DockerError] or a [KeyError]. *)
Lemma clean_kernel_delete_phase (env : clean_env) kid s :
  let m := try_except
    (r <- registry_get kid ;;
     let container_id := container_id r in
     try_except
       (perform (ContainerDelete container_id) (cl_delete env))
       (fun e =>
          match e with
          | DockerError status message =>
              if (status =? 400) && contains "already in progress" message
              then ret tt
              else if status =? 404 then ret tt
              else ret tt
          | _ => raise e
          end))
    (fun e => match e with KeyError => ret tt | _ => raise e end) in
  (exists l, snd (m s) = with_trace (fun t => t ++ l) s
             /\ (l = [] \/ exists cid, l = [ContainerDelete cid]))
  /\ (fst (m s) = Ok tt
      \/ (fst (m s) = Raise match cl_delete env with Raise e => e | _ => KeyError end
          /\ ~ answered (cl_delete env)
          /\ is_Some (container_registry s !! kid))).
Proof.
  cbv zeta. unfold_m.
  destruct (container_registry s !! kid) as [r|]; simpl.
  2:{ split; [exists []; split; [|left; reflexivity]|left; reflexivity].
      destruct s; unfold with_trace; simpl. rewrite app_nil_r. reflexivity. }
  destruct (cl_delete env) as [[]|e]; simpl.
  { split; [eexists; split; [reflexivity|eauto]|left; reflexivity]. }
  destruct e; simpl;
    try (split; [eexists; split; [reflexivity|eauto]
                |first [left; reflexivity | right; repeat split; eauto]]).
  destruct ((status0 =? 400) && _); simpl;
    [|destruct (status0 =? 404); simpl];
    (split; [eexists; split; [reflexivity|eauto]|left; reflexivity]).
Qed.

Ltac clean_start env kid s :=
  unfold clean_kernel; cbv zeta; rewrite bind_unfold;
  let Hph := fresh "Hph" in
  pose proof (clean_kernel_delete_phase env kid s) as Hph; cbv zeta in Hph;
  match type of Hph with
  | context [snd (?m s)] =>
      let l := fresh "l" in
      let Hs := fresh "Hs" in
      let Hl := fresh "Hl" in
      let Hr := fresh "Hres" in
      destruct Hph as ((l & Hs & Hl) & Hr);
      destruct (m s) as [[[]|?e] ?s1]; simpl in Hs, Hr |- *; subst
  end.

Lemma dispatch_outcome_cases (o : result unit) :
  o = Ok tt \/ o = Raise KeyError \/ o = Raise TimeoutError
  \/ exists e, o = Raise e
       /\ forall (A : Type) (a b : A),
           match e with KeyError | TimeoutError => a | _ => b end = b.
Proof.
  destruct o as [[]|e]; [auto|].
  destruct e; auto; right; right; right; eexists; split; reflexivity || auto.
Qed.

(** What [clean_kernel] does for a kernel that is not being restarted. *)
Lemma clean_kernel_outcome env kid s :
  restarting_kernels s !! kid = None ->
  let res := fst (clean_kernel env kid s) in
  let s' := snd (clean_kernel env kid s) in
  config s' = config s
  /\ restarting_kernels s' = restarting_kernels s
  /\ (res = Ok tt \/ blocking_cleans s' = blocking_cleans s)
  /\ (res = Ok tt ->
      directories s' = directories s ∖ {[work_dir_of s kid]}
      /\ container_registry s' = delete kid (container_registry s)
      /\ blocking_cleans s'
         = match blocking_cleans s !! kid with
           | Some _ => <[kid := true]> (blocking_cleans s)
           | None => blocking_cleans s
           end)
  /\ (answered (cl_delete env) ->
      container_registry s' = delete kid (container_registry s)
      /\ container_cpu_map s'
         = match container_registry s !! kid with
           | Some r => free (core_set r) (container_cpu_map s)
           | None => container_cpu_map s
           end).
Proof.
  intros Hr. cbv zeta. clean_start env kid s.
  2:{ destruct Hres as [?|(_ & Hna & _)]; [discriminate|].
      repeat split; auto; try discriminate; contradiction. }
  clear Hres.
  unfold rmtree. unfold_m. unfold work_dir_of.
  assert (forall d : gset string, d ∖ {[work_dir_of s kid]} = d \/ True)
    as _ by auto.
  destruct (decide (cfg_volume_root (config s) +:+ "/" +:+ kid
                    ∈ directories s)) as [Hin|Hnin] eqn:Hdec.
  all: destruct (container_registry s !! kid) as [r|] eqn:Hreg.
  all: destruct (blocking_cleans s !! kid) as [[]|] eqn:Hb.
  all: try (destruct (dispatch_outcome_cases (cl_dispatch env))
              as [Hd|[Hd|[Hd|(e & Hd & He)]]]).
  all: run; rewrite ?He; simpl.
  all: repeat split; auto; try discriminate; intros;
    rewrite ?delete_id by assumption; auto; try set_solver.
Qed.


(** What a call of [clean_kernel] that returns leaves behind, for a kernel
    that is not being restarted. *)
Lemma clean_kernel_leaves env kid s :
  restarting_kernels s !! kid = None ->
  fst (clean_kernel env kid s) = Ok tt ->
  let s1 := snd (clean_kernel env kid s) in
  container_registry s1 !! kid = None
  /\ work_dir_of s1 kid ∉ directories s1
  /\ restarting_kernels s1 !! kid = None
  /\ blocking_cleans s1 !! kid <> Some false.
Proof.
  intros Hr Hok. cbv zeta.
  destruct (clean_kernel_outcome env kid s Hr) as (Hcfg & Hres & _ & Hfin & _).
  destruct (Hfin Hok) as (Hdir & Hreg & Hblk).
  unfold work_dir_of. rewrite Hcfg, Hdir, Hreg, Hres, Hblk. fold (work_dir_of s kid).
  split; [apply lookup_delete_eq|]. split; [set_solver|]. split; [exact Hr|].
  destruct (blocking_cleans s !! kid) eqn:Hb.
  - rewrite lookup_insert_eq. discriminate.
  - rewrite Hb. discriminate.
Qed.

Lemma with_blocking_id kid s :
  blocking_cleans s !! kid = Some true ->
  with_blocking (insert kid true) s = s.
Proof.
  intros Hb. destruct s; unfold with_blocking; simpl in *. f_equal.
  apply insert_id; exact Hb.
Qed.

(** C8. For a kernel that is not being restarted, a second [clean_kernel]
    after one that returned changes nothing and raises nothing: it leaves
    the state of the first call, registry, allocator, directories and log
    of dispatched events included, whatever the engine and the event
    channel would answer. *)
Theorem clean_kernel_idempotent env1 env2 kid s :
  restarting_kernels s !! kid = None ->
  fst (clean_kernel env1 kid s) = Ok tt ->
  let s1 := snd (clean_kernel env1 kid s) in
  clean_kernel env2 kid s1 = (Ok tt, s1)
  /\ container_registry s1 !! kid = None.
Proof.
  intros Hr Hok s1.
  destruct (clean_kernel_leaves env1 kid s Hr Hok) as (Hreg & Hdir & Hres & Hblk).
  fold s1 in Hreg, Hdir, Hres, Hblk. split; [|exact Hreg].
  clearbody s1. clear Hok Hr.
  unfold clean_kernel, rmtree. unfold_m. simpl.
  rewrite Hreg, Hres. simpl.
  destruct (decide _) as [Hin|_]; [contradiction|]. simpl.
  rewrite Hreg. simpl.
  destruct (blocking_cleans s1 !! kid) as [[|]|] eqn:Hb; try done.
  rewrite with_blocking_id; done.
Qed.

Lemma clean_kernel_idempotent_witness :
  clean_kernel Samples.clean_ok "k1"
    (snd (clean_kernel Samples.clean_ok "k1" Samples.s0))
  = (Ok tt, snd (clean_kernel Samples.clean_ok "k1" Samples.s0))
  /\ container_registry
       (snd (clean_kernel Samples.clean_ok "k1" Samples.s0)) !! "k1" = None.
Proof.
  apply (clean_kernel_idempotent Samples.clean_ok Samples.clean_ok "k1"
           Samples.s0); vm_compute; reflexivity.
Defined.

(** For a registered kernel that is not being restarted, [clean_kernel]
    removes the record and frees the cores once the engine has answered. *)
Lemma clean_kernel_frees cl kid s r :
  container_registry s !! kid = Some r ->
  restarting_kernels s !! kid = None ->
  answered (cl_delete cl) ->
  let s' := snd (clean_kernel cl kid s) in
  container_registry s' !! kid = None
  /\ container_cpu_map s' = free (core_set r) (container_cpu_map s).
Proof.
  intros Hreg Hr Hans. cbv zeta.
  destruct (clean_kernel_outcome cl kid s Hr) as (_ & _ & _ & _ & Hfree).
  destruct (Hfree Hans) as (-> & ->). rewrite Hreg.
  split; [apply lookup_delete_eq | reflexivity].
Qed.

(** For a kernel that is being restarted, [clean_kernel] sets the event and
    leaves everything else alone. *)
Lemma clean_kernel_restarting cl kid s b :
  restarting_kernels s !! kid = Some b ->
  let s' := snd (clean_kernel cl kid s) in
  container_registry s' = container_registry s
  /\ container_cpu_map s' = container_cpu_map s
  /\ directories s' = directories s
  /\ blocking_cleans s' = blocking_cleans s
  /\ config s' = config s
  /\ dispatched s' = dispatched s
  /\ scheduled s' = scheduled s
  /\ trace_grows s s'
  /\ (restarting_kernels s' = restarting_kernels s
      \/ restarting_kernels s' = <[kid := true]> (restarting_kernels s))
  /\ (fst (clean_kernel cl kid s) = Ok tt ->
      restarting_kernels s' = <[kid := true]> (restarting_kernels s)).
Proof.
  intros Hr. cbv zeta.
  unfold clean_kernel; cbv zeta; rewrite bind_unfold.
  pose proof (clean_kernel_delete_phase cl kid s) as Hph; cbv zeta in Hph.
  match type of Hph with
  | context [snd (?m s)] =>
      destruct Hph as ((l & Hs & Hl) & _);
      destruct (m s) as [[[]|?e] ?s1]; simpl in Hs |- *; subst
  end.
  - rewrite bind_get. simpl. rewrite Hr. simpl.
    unfold dispatched, scheduled. simpl. rewrite !omap_app.
    destruct Hl as [->|(cid & ->)]; simpl; rewrite ?app_nil_r;
      repeat split; auto; grows_leaf.
  - unfold dispatched, scheduled. simpl. rewrite !omap_app.
    destruct Hl as [->|(cid & ->)]; simpl; rewrite ?app_nil_r;
      repeat split; auto; try discriminate; grows_leaf.
Qed.
(** C1, as the code has it. [_destroy_kernel] keeps every record (the keys
    written at creation included) and the allocator unless the engine
    answers the kill, or the statistics request before it, with status 404;
    in that case, when the method returns, it has removed the record and
    freed its cores. [clean_kernel] removes the record and frees the cores
    of a registered kernel that is not being restarted. *)
Theorem destroy_kernel_keeps_record env cl kid reason s :
  let s' := snd (_destroy_kernel env kid reason s) in
  (kill_not_found env = false -> keeps_kernels s s')
  /\ (forall r, container_registry s !! kid = Some r ->
                kill_not_found env = true ->
                fst (_destroy_kernel env kid reason s) = Ok tt ->
                container_registry s' !! kid = None
                /\ container_cpu_map s'
                   = free (core_set r) (container_cpu_map s))
  /\ (forall r, container_registry s !! kid = Some r ->
                restarting_kernels s !! kid = None ->
                answered (cl_delete cl) ->
                container_registry (snd (clean_kernel cl kid s)) !! kid = None
                /\ container_cpu_map (snd (clean_kernel cl kid s))
                   = free (core_set r) (container_cpu_map s)).
Proof.
  cbv zeta.
  destruct (destroy_kernel_cases env kid reason s) as (Hkeep & Hgone).
  split; [exact Hkeep|]. split; [exact Hgone|].
  intros r Hr Hres Hans. apply clean_kernel_frees; assumption.
Qed.

(** *** [execute_code] *)

Lemma schedules_execute_code_finish env task res :
  preserves schedules_nothing (_execute_code_finish env task res).
Proof.
  unfold _execute_code_finish, container_resgistry.
  apply preserves_bind; try exact schedules_nothing_trans;
    [sched | intros s0].
  apply preserves_bind; try exact schedules_nothing_trans;
    [sched | intros files].
  destruct (String.eqb (rr_status res) "exec-timeout").
  - apply preserves_bind_assoc; sched.
  - sched.
Qed.

(** No call of [execute_code] schedules anything. *)
Lemma schedules_execute_code env entry kid code_id code m :
  preserves schedules_nothing (execute_code env entry kid code_id code m).
Proof.
  unfold execute_code, _execute_code, _execute_code_prepare,
    _execute_code_from, _execute_code_guarded.
  sched_with ltac:(apply schedules_execute_code_finish).
Qed.

Lemma execute_code_finish_raises env task res s :
  rr_status res = "exec-timeout" ->
  exists e, fst (_execute_code_finish env task res s) = Raise e.
Proof.
  intros Hst. unfold _execute_code_finish, container_resgistry.
  rewrite Hst. simpl. unfold_m.
  repeat (case_match; simplify_eq/=; eauto).
Qed.

Lemma execute_code_from_raises env task body s :
  (forall s, match fst (body s) with
             | Ok r => rr_status r = "exec-timeout"
             | Raise e => e <> CancelledError
             end) ->
  exists e, fst (_execute_code_from env task body s) = Raise e.
Proof.
  intros Hb. unfold _execute_code_from, _execute_code_guarded.
  unfold try_finally, try_except. rewrite bind_unfold.
  specialize (Hb s). unfold bind at 1.
  destruct (body s) as [[r|e] s1]; simpl in Hb |- *.
  - destruct (registry_del_key _ _ _ s1) as [[[]|e'] s2]; simpl; eauto.
    rewrite bind_unfold.
    destruct (execute_code_finish_raises env task r s2 Hb) as (e & He).
    destruct (_execute_code_finish env task r s2) as [[x|e0] s3];
      simpl in *; [discriminate | eauto].
  - destruct e; try contradiction; simpl;
      destruct (registry_del_key _ _ _ _) as [[[]|e'] s2]; simpl; eauto.
Qed.

Lemma execute_code_raises env entry kid code_id code m s res :
  ee_next_result env = Ok res -> rr_status res = "exec-timeout" ->
  exists e, fst (execute_code env entry kid code_id code m s) = Raise e.
Proof.
  intros Hnext Hst. unfold execute_code, _execute_code.
  rewrite bind_bind, bind_unfold.
  destruct (_execute_code_prepare env kid code_id code s) as [[rn|e] s1];
    [|eauto].
  rewrite bind_unfold.
  match goal with
  | |- context [_execute_code_from ?e ?t ?b s1] =>
      destruct (execute_code_from_raises e t b s1) as (e0 & He)
  end.
  { intros s2. rewrite Hnext. unfold_m.
    destruct (container_registry s2 !! kid); simpl;
      [exact Hst | discriminate]. }
  destruct (_execute_code_from _ _ _ s1) as [[x|e1] s2]; simpl in *;
    [discriminate | eauto].
Qed.

Lemma execute_code_attribute_error env entry kid code_id code m s r res :
  container_registry s !! kid = Some r ->
  (is_Some (runner r) -> is_Some (initial_file_stats r)) ->
  prepare_ok env r -> resume_ok (ee_resume env) ->
  ee_next_result env = Ok res -> rr_status res = "exec-timeout" ->
  fst (execute_code env entry kid code_id code m s) = Raise AttributeError
  /\ is_Some (container_registry
                (snd (execute_code env entry kid code_id code m s)) !! kid).
Proof.
  intros Hr Hinit Hprep (Hclose & (st' & Hscan') & (fns & Hup)) Hnext Hst.
  unfold prepare_ok in Hprep.
  unfold execute_code, _execute_code, _execute_code_prepare,
    _execute_code_from, _execute_code_guarded, _execute_code_finish,
    container_resgistry.
  unfold_m.
  destruct (runner r) as [rn|] eqn:Hrn.
  - destruct Hinit as (st & Hst0); [eauto|].
    run. destruct (rr_options res) as [[[]|]|]; run; eauto.
  - destruct Hprep as ((st & Hscan) & Hstart).
    run. destruct (rr_options res) as [[[]|]|]; run; eauto.
Qed.

(** C4, on the code. An [execute_code] call whose result has status
    [exec-timeout] raises instead of returning its result map, and schedules
    nothing, so no [_destroy_kernel]: when the kernel is registered and the
    runner, the scan and the upload work, the exception is the
    [AttributeError] of [self.container_resgistry], and the kernel is still
    registered afterwards. *)
Theorem execute_code_exec_timeout env entry kid code_id code m s res :
  ee_next_result env = Ok res ->
  rr_status res = "exec-timeout" ->
  let s' := snd (execute_code env entry kid code_id code m s) in
  (exists e, fst (execute_code env entry kid code_id code m s) = Raise e)
  /\ scheduled s' = scheduled s
  /\ (forall r, container_registry s !! kid = Some r ->
                (is_Some (runner r) -> is_Some (initial_file_stats r)) ->
                prepare_ok env r -> resume_ok (ee_resume env) ->
                fst (execute_code env entry kid code_id code m s)
                = Raise AttributeError
                /\ is_Some (container_registry s' !! kid)).
Proof.
  intros Hnext Hst. cbv zeta. split; [|split].
  - eapply execute_code_raises; eassumption.
  - apply (schedules_execute_code env entry kid code_id code m s).
  - intros r Hr Hinit Hprep Hres.
    eapply execute_code_attribute_error; eassumption.
Qed.

Lemma execute_code_cancelled_part env entry kid code_id code m s r :
  container_registry s !! kid = Some r ->
  prepare_ok env r ->
  ee_next_result env = Raise CancelledError ->
  re_close (ee_resume env) = Ok tt ->
  let s1 := snd (_execute_code env entry kid code_id code m s) in
  fst (_execute_code env entry kid code_id code m s) = Ok None
  /\ exists r1 rn, container_registry s1 !! kid = Some r1
       /\ runner r1 = None /\ runner_task r1 = None
       /\ last (trace s1) = Some (RunnerClose rn).
Proof.
  intros Hr Hprep Hnext Hclose. unfold prepare_ok in Hprep.
  unfold _execute_code, _execute_code_prepare, _execute_code_from,
    _execute_code_guarded.
  unfold_m.
  destruct (runner r) as [rn|] eqn:Hrn.
  - run. split; [reflexivity|]. eexists _, rn. split; [reflexivity|].
    rewrite last_snoc. auto.
  - destruct Hprep as ((st & Hscan) & Hstart). run.
    split; [reflexivity|]. eexists _, _. split; [reflexivity|].
    rewrite last_snoc. auto.
Qed.

Lemma execute_code_fresh_runner env entry kid code_id code m s r res :
  container_registry s !! kid = Some r ->
  runner r = None ->
  prepare_ok env r ->
  ee_next_result env = Ok res ->
  rr_status res <> "exec-timeout" ->
  resume_ok (ee_resume env) ->
  let s' := snd (_execute_code env entry kid code_id code m s) in
  exists out rn rest,
    fst (_execute_code env entry kid code_id code m s) = Ok (Some out)
    /\ status out = rr_status res /\ stdout out = rr_stdout res
    /\ stderr out = rr_stderr res
    /\ kr_features rn = ["input"; "continuation"]
    /\ trace s' = trace s ++ Scandir (work_dir_of s kid)
                     :: RunnerStart rn code_id code
                     :: RunnerGetNextResult rn 1 :: rest.
Proof.
  intros Hr Hrn Hprep Hnext Hst (Hclose & (st' & Hscan') & (fns & Hup)).
  unfold prepare_ok in Hprep. rewrite Hrn in Hprep.
  destruct Hprep as ((st & Hscan) & Hstart).
  unfold _execute_code, _execute_code_prepare, _execute_code_from,
    _execute_code_guarded, _execute_code_finish, container_resgistry.
  unfold_m.
  assert (String.eqb (rr_status res) "exec-timeout" = false) as Hto
      by (apply String.eqb_neq; exact Hst).
  run.
  destruct (String.eqb (rr_status res) "finished") eqn:Hfin; run;
    [destruct (rr_options res) as [[[]|]|]; run|].
  all: eexists _, _, _; (split; [reflexivity|]); simpl.
  all: repeat (split; [reflexivity|]).
  all: unfold work_dir_of; simpl.
  all: (split; [|rewrite <- !app_assoc; simpl; reflexivity]); reflexivity.
Qed.

Lemma execute_code_return_none m :
  forall out, execute_code_return m None <> Ok (Some out).
Proof.
  intros out. unfold execute_code_return.
  destruct m as [[|b d]|]; try discriminate.
  destruct (match_result None (b :: d)); discriminate.
Qed.

(** C6. An [execute_code] call that is cancelled while it awaits the next
    result closes the runner, leaves the record without [runner] and without
    [runner_task], and hands no result map to its caller. A later call on
    the same kernel starts a new runner, with the features [input] and
    [continuation], and returns the result it is given. *)
Theorem execute_code_cancelled env entry kid code_id code m s r :
  container_registry s !! kid = Some r ->
  prepare_ok env r ->
  ee_next_result env = Raise CancelledError ->
  re_close (ee_resume env) = Ok tt ->
  let s1 := snd (_execute_code env entry kid code_id code m s) in
  fst (_execute_code env entry kid code_id code m s) = Ok None
  /\ (forall out,
        fst (execute_code env entry kid code_id code m s) <> Ok (Some out))
  /\ (exists r1 rn, container_registry s1 !! kid = Some r1
        /\ runner r1 = None /\ runner_task r1 = None
        /\ last (trace s1) = Some (RunnerClose rn))
  /\ (forall env2 entry2 code_id2 code2 m2 res,
        (exists st, ee_scandir env2 = Ok st) ->
        ee_start env2 = Ok tt ->
        ee_next_result env2 = Ok res ->
        rr_status res <> "exec-timeout" ->
        resume_ok (ee_resume env2) ->
        exists out rn rest,
          fst (_execute_code env2 entry2 kid code_id2 code2 m2 s1)
          = Ok (Some out)
          /\ status out = rr_status res /\ stdout out = rr_stdout res
          /\ stderr out = rr_stderr res
          /\ kr_features rn = ["input"; "continuation"]
          /\ trace (snd (_execute_code env2 entry2 kid code_id2 code2 m2 s1))
             = trace s1 ++ Scandir (work_dir_of s1 kid)
                 :: RunnerStart rn code_id2 code2
                 :: RunnerGetNextResult rn 1 :: rest).
Proof.
  intros Hr Hprep Hnext Hclose. cbv zeta.
  destruct (execute_code_cancelled_part env entry kid code_id code m s r
              Hr Hprep Hnext Hclose) as (Hnone & r1 & rn & Hr1 & Hrn & Htask & Hlast).
  split; [exact Hnone|]. split; [|split].
  - intros out. unfold execute_code. rewrite bind_unfold.
    destruct (_execute_code env entry kid code_id code m s) as [[o|e] s1];
      simpl in Hnone |- *; [|discriminate].
    injection Hnone as ->. apply execute_code_return_none.
  - eauto 10.
  - intros env2 entry2 code_id2 code2 m2 res Hscan Hstart Hnext2 Hst Hres.
    apply (execute_code_fresh_runner env2 entry2 kid code_id2 code2 m2 _ r1);
      try assumption.
    unfold prepare_ok. rewrite Hrn. auto.
Qed.

(** *** [restart_kernel] on an unknown kernel *)

(** C5. On a kernel id that is not registered, [restart_kernel] raises
    [KeyError]; it neither changes the allocator nor the registry, but the
    entry it has put in [restarting_kernels] is still there. *)
Theorem restart_kernel_unknown (env : restart_env) (kernel_id : string)
        (s : State) :
  container_registry s !! kernel_id = None ->
  let s' := snd (restart_kernel env kernel_id s) in
  fst (restart_kernel env kernel_id s) = Raise KeyError
  /\ restarting_kernels s' !! kernel_id = Some false
  /\ container_registry s' = container_registry s
  /\ container_cpu_map s' = container_cpu_map s
  /\ trace s' = trace s.
Proof.
  intros Hnone.
  unfold restart_kernel, _destroy_kernel, registry_get, bind, modify, get, ret.
  simpl. rewrite Hnone. simpl. rewrite Hnone. simpl.
  rewrite lookup_insert_eq. auto.
Qed.

(** *** [match_result] *)

Lemma pyval_in_valid_op (v : pyval) :
  pyval_in v ["contains"; "equal"; "regex"] = true <-> valid_op v.
Proof.
  unfold valid_op. destruct v as [| | |x| |]; simpl;
    try (split; [discriminate | intros [|[|]]; discriminate]).
  rewrite !orb_true_iff, !String.eqb_eq. split.
  - intros [->|[->|[->|[=]]]]; auto.
  - intros [[= ->]|[[= ->]|[= ->]]]; auto.
Qed.

Lemma pyval_in_valid_target (v : pyval) :
  pyval_in v ["stdout"; "stderr"; "exception"] = true <-> valid_target v.
Proof.
  unfold valid_target. destruct v as [| | |x| |]; simpl;
    try (split; [discriminate | intros [|[|]]; discriminate]).
  rewrite !orb_true_iff, !String.eqb_eq. split.
  - intros [->|[->|[->|[=]]]]; auto.
  - intros [[= ->]|[[= ->]|[= ->]]]; auto.
Qed.

Lemma match_result_malformed (res : option ResultMap) (m : pydict) :
  malformed m ->
  match_result res m = Raise TypeError
  \/ match_result res m = Raise AssertionError.
Proof.
  unfold malformed, match_result.
  destruct (dict_get m "op") as [op|]; [|auto].
  destruct (dict_get m "target") as [target|]; [|auto].
  destruct (dict_get m "value") as [value|]; [|auto].
  intros Hbad.
  destruct (pyval_in op _) eqn:Hop; simpl; [|auto].
  destruct (pyval_in target _) eqn:Htg; simpl; [|auto].
  apply pyval_in_valid_op in Hop. apply pyval_in_valid_target in Htg.
  destruct value; auto.
  destruct Hbad as [?|[?|Hv]]; try contradiction.
  contradiction Hv. eexists; reflexivity.
Qed.

Lemma execute_code_return_malformed (m : pydict) (res : option ResultMap) :
  m <> [] -> malformed m -> exists e, execute_code_return (Some m) res = Raise e.
Proof.
  intros Hne Hbad. unfold execute_code_return.
  destruct m as [|b d]; [congruence|].
  destruct (match_result_malformed res (b :: d) Hbad) as [-> | ->]; eauto.
Qed.

(** C9. A match specification that lacks one of its three keys, or whose
    operator, target or value is not an admitted one, makes [match_result]
    raise ([TypeError] or [AssertionError]), and so the [execute_code] call
    that carries it. With target [exception] the content matched is the name
    of the last exception of the result, and the match is false when the
    result has none. *)
Theorem match_result_checked (res : option ResultMap) (m : pydict) :
  (malformed m ->
   match_result res m = Raise TypeError
   \/ match_result res m = Raise AssertionError)
  /\ (forall env entry_id kernel_id code_id code s,
        m <> [] -> malformed m ->
        exists e,
          fst (execute_code env entry_id kernel_id code_id code (Some m) s)
          = Raise e)
  /\ (forall r op value,
        res = Some r ->
        dict_get m "op" = Some op -> valid_op op ->
        dict_get m "target" = Some (PStr "exception") ->
        dict_get m "value" = Some (PStr value) ->
        match last (exceptions r) with
        | None => match_result res m = Ok false
        | Some (exc_name, _) =>
            (op = PStr "contains" ->
             match_result res m = Ok (contains value exc_name))
            /\ (op = PStr "equal" ->
                match_result res m = Ok (String.eqb value exc_name))
            /\ (op = PStr "regex" ->
                match_result res m = re_search value exc_name)
        end).
Proof.
  split; [apply match_result_malformed|]. split.
  - intros env entry_id kernel_id code_id code s Hne Hbad.
    unfold execute_code, bind, lift.
    destruct (_execute_code env entry_id kernel_id code_id code (Some m) s)
      as [[r|e] s']; simpl; [|eauto].
    apply execute_code_return_malformed; assumption.
  - intros r op value -> Hop Hvalid Htg Hval.
    unfold match_result. rewrite Hop, Htg, Hval.
    apply pyval_in_valid_op in Hvalid as Hin. rewrite Hin. simpl.
    destruct (last (exceptions r)) as [[exc_name args]|]; [|reflexivity].
    repeat split; intros ->; reflexivity.
Qed.

(** *** [_create_kernel] *)

Ltac container_leaf :=
  simpl; repeat split; try reflexivity; try sched_leaf; try grows_leaf.

(** From the memory limit to the insertion of the record. *)
Ltac container_tail env mem :=
  rewrite bind_lift;
  destruct (readable_size_to_bytes mem) as [?memory|?e]; [|container_leaf];
  rewrite bind_perform;
  destruct (ce_create env) as [?cid|?e]; [|container_leaf];
  rewrite bind_perform;
  destruct (ce_start env) as [[]|?e]; [|container_leaf];
  rewrite bind_perform;
  destruct (ce_port_2000 env) as [?p0|?e]; [|container_leaf];
  rewrite bind_perform;
  destruct (ce_port_2001 env) as [?p1|?e]; [|container_leaf];
  rewrite bind_perform;
  destruct (ce_port_2002 env) as [?p2|?e]; [|container_leaf];
  rewrite bind_perform;
  destruct (ce_port_2003 env) as [?p3|?e]; [|container_leaf];
  rewrite bind_modify; unfold ret; container_leaf;
  eexists; repeat split; reflexivity.

(** The last part of [_create_kernel] leaves the allocator and the tables
    alone, schedules nothing, and inserts the record only when it returns. *)
Lemma create_kernel_container_effect env lang kid labels v mem t envs node cs
      n s :
  let res := fst (_create_kernel_container env lang kid labels v mem t envs
                    (node, cs, n) s) in
  let s' := snd (_create_kernel_container env lang kid labels v mem t envs
                   (node, cs, n) s) in
  container_cpu_map s' = container_cpu_map s
  /\ restarting_kernels s' = restarting_kernels s
  /\ directories s' = directories s
  /\ scheduled s' = scheduled s
  /\ trace_grows s s'
  /\ match res with
     | Ok k =>
         k = kid
         /\ exists r',
             container_registry s' = <[kid := r']> (container_registry s)
             /\ core_set r' = cs /\ numa_node r' = node
     | Raise _ => container_registry s' = container_registry s
     end.
Proof.
  cbv zeta. unfold _create_kernel_container, get_extra_volumes.
  rewrite bind_get, bind_bind, bind_perform.
  destruct (ce_volumes env) as [avail|e]; [|container_leaf].
  match goal with
  | |- context [bind (match avail with [] => ret [] | _ :: _ => ret ?y end)] =>
      replace (match avail with [] => ret [] | _ :: _ => ret y end)
        with (ret (match avail with [] => [] | _ :: _ => y end) : M _)
        by (destruct avail; reflexivity)
  end.
  rewrite bind_ret.
  destruct (String.eqb "yes" _).
  - rewrite bind_bind, bind_perform.
    destruct (ce_nvidia env) as [[eb ed]|e]; [|container_leaf].
    rewrite bind_ret. container_tail env mem.
  - rewrite bind_ret. container_tail env mem.
Qed.

Lemma elements_nonempty (cs : CoreSet) :
  cs <> ∅ -> exists c l, elements cs = c :: l /\ c ∈ cs.
Proof.
  intros Hne. destruct (elements cs) as [|c l] eqn:He.
  - apply elements_empty_inv in He. apply leibniz_equiv in He. contradiction.
  - exists c, l. split; [reflexivity|]. apply elem_of_elements. rewrite He.
    apply list_elem_of_here.
Qed.

(** The cores of a kernel that is being restarted are those of its record;
    the wait has a deadline of 10, and when it expires the entry is removed
    and [clean_kernel] is scheduled. *)
Lemma create_kernel_resources_restarting env labels kid s b r :
  restarting_kernels s !! kid = Some b ->
  container_registry s !! kid = Some r ->
  core_set r <> ∅ ->
  let res := fst (_create_kernel_resources env labels kid s) in
  let s' := snd (_create_kernel_resources env labels kid s) in
  container_registry s' = container_registry s
  /\ container_cpu_map s' = container_cpu_map s
  /\ directories s' = directories s
  /\ (exists rest, trace s' = trace s ++ EventWait kid 10 :: rest)
  /\ match res with
     | Ok (node, cs, n) =>
         cs = core_set r
         /\ (exists c, c ∈ core_set r /\ node = node_of_cpu c)
         /\ scheduled s' = scheduled s
         /\ restarting_kernels s' = <[kid := true]> (restarting_kernels s)
     | Raise _ => True
     end
  /\ (b = false -> ce_wait env = WaitExpired ->
      res = Raise TimeoutError
      /\ restarting_kernels s' = delete kid (restarting_kernels s)
      /\ trace s'
         = trace s ++ [EventWait kid 10; EnsureFuture (FCleanKernel kid)]).
Proof.
  intros Hres Hr Hne. cbv zeta.
  destruct (elements_nonempty _ Hne) as (c & l & Hel & Hc).
  unfold _create_kernel_resources. rewrite bind_get, Hres.
  rewrite bind_registry_get, Hr, Hel, bind_ret.
  unfold wait_restarting.
  rewrite bind_unfold. unfold try_except. rewrite bind_get, Hres.
  destruct b.
  - (* the event is already set *)
    unfold perform, ret. simpl. rewrite insert_id by exact Hres.
    repeat split; eauto; try discriminate. sched_leaf.
  - destruct (ce_wait env) as [cl|] eqn:Hw.
    + (* [clean_kernel] runs during the wait *)
      rewrite bind_perform, bind_unfold.
      set (s1 := with_trace _ s).
      assert (restarting_kernels s1 !! kid = Some false) as Hres1
          by exact Hres.
      destruct (clean_kernel_restarting cl kid s1 false Hres1)
        as (Hreg & Hcpu & Hdir & _ & _ & _ & Hsch & (rest & Hgrow) & Hcase & _).
      set (s2 := snd (clean_kernel cl kid s1)) in *.
      simpl. rewrite bind_get.
      assert (trace s2 = trace s ++ EventWait kid 10 :: rest) as Htr.
      { rewrite Hgrow. subst s1. simpl. rewrite <- app_assoc. reflexivity. }
      destruct Hcase as [Hsame|Hset].
      * rewrite Hsame. subst s1. simpl. rewrite Hres. simpl.
        simpl in Hsame. unfold bind, ensure_future, perform, raise, ret.
        simpl. rewrite Hsame, Hres. simpl.
        repeat split; eauto; try discriminate.
        eexists. rewrite Htr, <- app_assoc. reflexivity.
      * rewrite Hset, lookup_insert_eq. simpl.
        repeat split; eauto; try discriminate.
        rewrite Hsch. subst s1. sched_leaf.
    + (* the deadline expires *)
      unfold perform, bind, ensure_future, perform, raise, ret.
      simpl. rewrite Hres. simpl.
      repeat split; eauto.
      * eexists. rewrite <- app_assoc. reflexivity.
      * rewrite <- app_assoc. reflexivity.
Qed.

(** C3. Called for a kernel that is in [restarting_kernels] (with its record
    and its cores, once the event is dispatched and the image inspected),
    [_create_kernel] waits for the event of that kernel with a deadline of
    10 seconds. When the deadline expires it removes the entry, schedules
    [clean_kernel] for the kernel and raises the timeout error; it has asked
    the engine for no container, and registry and allocator are as before. *)
Theorem create_kernel_restart_timeout env lang kid s b r labels v t :
  kid <> "" ->
  restarting_kernels s !! kid = Some b ->
  container_registry s !! kid = Some r ->
  core_set r <> ∅ ->
  ce_dispatch env = Ok tt ->
  ce_image env = Ok labels ->
  int_of_str (label labels "io.sorna.version" "1") = Ok v ->
  int_of_str (label labels "io.sorna.timeout" "10") = Ok t ->
  let s' := snd (_create_kernel env lang (Some kid) s) in
  (exists rest,
     trace s' = trace s ++ Dispatch (kernel_restarting kid)
                  :: ImagesGet ("lablup/kernel-" +:+ lang)
                  :: EventWait kid 10 :: rest)
  /\ (b = false -> ce_wait env = WaitExpired ->
      fst (_create_kernel env lang (Some kid) s) = Raise TimeoutError
      /\ restarting_kernels s' !! kid = None
      /\ scheduled s' = scheduled s ++ [FCleanKernel kid]
      /\ created s' = created s
      /\ container_registry s' = container_registry s
      /\ container_cpu_map s' = container_cpu_map s).
Proof.
  intros Hkid Hres Hr Hne Hdisp Himg Hv Ht. cbv zeta.
  unfold _create_kernel, _create_kernel_announce.
  destruct kid as [|c0 kid0]; [congruence|].
  set (kid := String c0 kid0) in *.
  rewrite bind_bind, bind_perform, Hdisp, bind_ret, bind_perform, Himg.
  rewrite bind_lift, Hv, bind_lift, Ht, bind_get.
  rewrite bind_unfold.
  set (s1 := with_trace _ (with_trace _ s)).
  destruct (create_kernel_resources_restarting env labels kid s1 b r
              Hres Hr Hne)
    as (Hreg & Hcpu & Hdir & (rest & Htr) & Hok & Hexp).
  destruct (_create_kernel_resources env labels kid s1)
    as [[[[node cs] n]|e] s2];
    simpl in Hreg, Hcpu, Hdir, Htr, Hok, Hexp; cbv beta iota.
  - split.
    + match goal with
      | |- context [_create_kernel_container ?a ?b ?k ?d ?e ?f ?g ?h
                      (?nd, ?cs, ?nn) s2] =>
          pose proof (create_kernel_container_effect a b k d e f g h nd cs nn
                        s2) as (_ & _ & _ & _ & (rest' & Hg) & _)
      end.
      eexists. rewrite Hg, Htr. subst s1. simpl.
      rewrite <- !app_assoc. simpl. reflexivity.
    + intros Hb Hw. destruct (Hexp Hb Hw) as (? & _). discriminate.
  - simpl. split.
    + eexists. rewrite Htr. subst s1. simpl.
      rewrite <- !app_assoc. simpl. reflexivity.
    + intros Hb Hw. destruct (Hexp Hb Hw) as ([= ->] & Hdel & Htr').
      split; [reflexivity|]. split; [rewrite Hdel; apply lookup_delete_eq|].
      unfold scheduled, created. rewrite Htr'. subst s1. simpl.
      rewrite !omap_app. simpl. rewrite !app_nil_r.
      repeat split; auto.
Qed.

Lemma create_kernel_announce_ok env kernel_id s :
  match kernel_id with
  | None | Some EmptyString => container_registry s !! ce_token env = None
  | Some _ => True
  end ->
  ce_dispatch env = Ok tt ->
  exists ev,
    _create_kernel_announce env kernel_id s
    = (Ok (effective_id env kernel_id),
       with_trace (fun t => t ++ [Dispatch ev]) s).
Proof.
  intros Hfresh Hdisp. unfold _create_kernel_announce, effective_id.
  destruct kernel_id as [[|c k]|]; unfold_m; simpl;
    rewrite ?Hfresh, Hdisp; eauto.
Qed.

Lemma create_kernel_resources_alloc env labels kid s requested node cs m :
  restarting_kernels s !! kid = None ->
  work_dir_of s kid ∉ directories s ->
  int_of_str (label labels "io.sorna.maxcores" "1") = Ok requested ->
  alloc (Z.min (num_cores (container_cpu_map s)) requested)
        (container_cpu_map s) = (Ok (node, cs), m) ->
  exists s',
    _create_kernel_resources env labels kid s
    = (Ok (node, cs, Z.min (num_cores (container_cpu_map s)) requested), s')
    /\ container_cpu_map s' = m
    /\ container_registry s' = container_registry s
    /\ trace s' = trace s.
Proof.
  intros Hres Hdir Hreq Halloc.
  unfold _create_kernel_resources, makedirs. rewrite bind_get, Hres.
  unfold_m. destruct (decide _) as [?|_]; [contradiction|].
  rewrite Hreq. simpl. rewrite Halloc. simpl. eauto.
Qed.

(** The cores [alloc] hands out are no longer free. *)
Lemma alloc_takes n m0 node cs m :
  alloc n m0 = (Ok (node, cs), m) -> free_cores m = free_cores m0 ∖ cs.
Proof.
  unfold alloc. destruct (n <=? 0); [discriminate|].
  destruct (most_free m0 (core_topo m0)) as [[nd cores]|]; [|discriminate].
  intros [= <- <- <-]. reflexivity.
Qed.

(** C2, as the code has it. When [_create_kernel] has been given cores by
    the allocator and then fails, the exception propagates with the
    allocator as [alloc] left it: the cores are not returned, none of them
    is free afterwards. The registry is as before. *)
Theorem create_kernel_failure_keeps_allocation
        env lang kernel_id s labels v t requested node cs m e :
  let kid := effective_id env kernel_id in
  match kernel_id with
  | None | Some EmptyString => container_registry s !! ce_token env = None
  | Some _ => True
  end ->
  ce_dispatch env = Ok tt ->
  ce_image env = Ok labels ->
  int_of_str (label labels "io.sorna.version" "1") = Ok v ->
  int_of_str (label labels "io.sorna.timeout" "10") = Ok t ->
  restarting_kernels s !! kid = None ->
  work_dir_of s kid ∉ directories s ->
  int_of_str (label labels "io.sorna.maxcores" "1") = Ok requested ->
  alloc (Z.min (num_cores (container_cpu_map s)) requested)
        (container_cpu_map s) = (Ok (node, cs), m) ->
  fst (_create_kernel env lang kernel_id s) = Raise e ->
  let s' := snd (_create_kernel env lang kernel_id s) in
  container_cpu_map s' = m
  /\ (forall c, c ∈ cs -> c ∉ free_cores (container_cpu_map s'))
  /\ container_registry s' = container_registry s.
Proof.
  intros kid Hfresh Hdisp Himg Hv Ht Hres Hdir Hreq Halloc. cbv zeta.
  unfold _create_kernel. rewrite bind_unfold.
  destruct (create_kernel_announce_ok env kernel_id s Hfresh Hdisp)
    as (ev & ->). fold kid.
  rewrite bind_perform, Himg, bind_lift, Hv, bind_lift, Ht, bind_get.
  rewrite bind_unfold.
  set (s1 := with_trace _ (with_trace _ s)).
  destruct (create_kernel_resources_alloc env labels kid s1 requested node cs m)
    as (s2 & -> & Hcpu2 & Hreg2 & _); try assumption.
  match goal with
  | |- context [_create_kernel_container ?a ?b ?k ?d ?e ?f ?g ?h
                  (?nd, ?cs, ?nn) s2] =>
      pose proof (create_kernel_container_effect a b k d e f g h nd cs nn s2)
        as (Hcpu3 & _ & _ & _ & _ & Hok3)
  end.
  destruct (_create_kernel_container _ _ _ _ _ _ _ _ _ s2) as [[k|e'] s3];
    simpl in Hcpu3, Hok3 |- *; [discriminate|].
  intros _. split; [congruence|]. split; [|rewrite Hok3, Hreg2; reflexivity].
  intros c Hc. rewrite Hcpu3, Hcpu2, (alloc_takes _ _ _ _ _ Halloc).
  set_solver.
Qed.

(** *** [restart_kernel] *)

(** When [restart_kernel] returns, the kernel has the cores and the node it
    had, and the allocator has not been touched. *)
Lemma restart_kernel_returns env kid s r ports :
  kid <> "" ->
  container_registry s !! kid = Some r ->
  core_set r <> ∅ ->
  numa_consistent r ->
  fst (restart_kernel env kid s) = Ok ports ->
  let s' := snd (restart_kernel env kid s) in
  container_cpu_map s' = container_cpu_map s
  /\ restarting_kernels s' !! kid = None
  /\ exists r', container_registry s' !! kid = Some r'
       /\ core_set r' = core_set r /\ numa_node r' = numa_node r
       /\ ports = (stdin_port r', stdout_port r').
Proof.
  intros Hkid Hr Hne Hnuma. cbv zeta.
  unfold restart_kernel. rewrite bind_modify, bind_unfold.
  set (s0 := with_restarting _ s).
  pose proof (destroy_kernel_cases (rs_destroy env) kid "restarting" s0)
    as (Hkeep & Hgone).
  assert (container_registry s0 !! kid = Some r) as Hr0 by exact Hr.
  specialize (Hgone r Hr0).
  destruct (_destroy_kernel (rs_destroy env) kid "restarting" s0)
    as [[[]|e] s1]; simpl in Hkeep, Hgone |- *; [|discriminate].
  rewrite bind_registry_get.
  destruct (kill_not_found (rs_destroy env)).
  { destruct Hgone as (-> & _); [reflexivity..|]. discriminate. }
  specialize (Hkeep eq_refl). clear Hgone.
  destruct (keeps_lookup _ _ _ _ Hkeep Hr0) as (r1 & Hr1 & Hfix).
  destruct Hkeep as (_ & Hcpu1 & Hres1 & _).
  rewrite Hr1. rewrite bind_unfold.
  unfold _create_kernel, _create_kernel_announce.
  destruct kid as [|c0 kid0]; [congruence|].
  set (kid := String c0 kid0) in *.
  rewrite bind_bind, bind_perform.
  destruct (ce_dispatch (rs_create env)) as [[]|e]; [|discriminate].
  rewrite bind_ret, bind_perform.
  destruct (ce_image (rs_create env)) as [labels|e]; [|discriminate].
  rewrite bind_lift. destruct (int_of_str _) as [v|e]; [|discriminate].
  rewrite bind_lift. destruct (int_of_str _) as [t|e]; [|discriminate].
  rewrite bind_get, bind_unfold.
  set (s2 := with_trace _ (with_trace _ s1)).
  assert (restarting_kernels s2 !! kid = Some false) as Hres2.
  { subst s2. simpl. rewrite Hres1. subst s0. simpl. apply lookup_insert_eq. }
  assert (container_registry s2 !! kid = Some r1) as Hr2 by exact Hr1.
  pose proof (fixed_part_core_set _ _ Hfix) as Hcs1.
  pose proof (fixed_part_numa_node _ _ Hfix) as Hnode1.
  assert (core_set r1 <> ∅) as Hne1 by (rewrite Hcs1; exact Hne).
  destruct (create_kernel_resources_restarting (rs_create env) labels kid s2
              false r1 Hres2 Hr2 Hne1)
    as (Hreg3 & Hcpu3 & _ & _ & Hok & _).
  destruct (_create_kernel_resources (rs_create env) labels kid s2)
    as [[[[node cs] n]|e] s3]; simpl in Hreg3, Hcpu3, Hok; cbv beta iota;
    [|simpl; discriminate].
  destruct Hok as (-> & (c & Hc & ->) & _ & Hres3).
  match goal with
  | |- context [_create_kernel_container ?a ?b ?k ?d ?e ?f ?g ?h
                  (?nd, ?cs, ?nn) s3] =>
      pose proof (create_kernel_container_effect a b k d e f g h nd cs nn s3)
        as (Hcpu4 & Hres4 & _ & _ & _ & Hok4)
  end.
  destruct (_create_kernel_container _ _ _ _ _ _ _ _ _ s3) as [[k|e] s4];
    simpl in Hcpu4, Hres4, Hok4 |- *; [|discriminate].
  destruct Hok4 as (-> & r4 & Hreg4 & Hcs4 & Hnode4).
  rewrite bind_modify, !bind_registry_get. simpl.
  rewrite Hreg4, lookup_insert_eq. unfold ret. simpl.
  rewrite bind_registry_get. simpl. rewrite Hreg4, lookup_insert_eq. simpl.
  intros [= <-]. split; [rewrite Hcpu4, Hcpu3, Hcpu1; reflexivity|].
  split; [apply lookup_delete_eq|].
  exists r4. split; [rewrite Hreg4; apply lookup_insert_eq|].
  split; [congruence|]. split; [|reflexivity].
  rewrite Hnode4. apply Hnuma. rewrite <- Hcs1. exact Hc.
Qed.

(** C7, as the code has it. For a kernel that is in [restarting_kernels],
    [clean_kernel] leaves registry, allocator and directories alone,
    dispatches nothing and, when it returns, has set the event;
    [_destroy_kernel] leaves the records and the allocator alone unless the
    kill is answered with status 404. When [restart_kernel] returns, the
    record of the kernel has the [core_set] and the [numa_node] it had, and
    the allocator is as before. *)
Theorem restart_kernel_keeps_cores env cl kid s r :
  kid <> "" ->
  container_registry s !! kid = Some r ->
  core_set r <> ∅ ->
  numa_consistent r ->
  (forall b, restarting_kernels s !! kid = Some b ->
     let sc := snd (clean_kernel cl kid s) in
     container_registry sc = container_registry s
     /\ container_cpu_map sc = container_cpu_map s
     /\ directories sc = directories s
     /\ dispatched sc = dispatched s
     /\ (fst (clean_kernel cl kid s) = Ok tt ->
         restarting_kernels sc = <[kid := true]> (restarting_kernels s)))
  /\ (forall denv reason,
        kill_not_found denv = false ->
        keeps_kernels s (snd (_destroy_kernel denv kid reason s)))
  /\ (forall ports,
        fst (restart_kernel env kid s) = Ok ports ->
        let s' := snd (restart_kernel env kid s) in
        container_cpu_map s' = container_cpu_map s
        /\ restarting_kernels s' !! kid = None
        /\ exists r', container_registry s' !! kid = Some r'
             /\ core_set r' = core_set r /\ numa_node r' = numa_node r
             /\ ports = (stdin_port r', stdout_port r')).
Proof.
  intros Hkid Hr Hne Hnuma. split; [|split].
  - intros b Hb. cbv zeta.
    destruct (clean_kernel_restarting cl kid s b Hb)
      as (? & ? & ? & _ & _ & ? & _ & _ & _ & ?).
    auto.
  - intros denv reason Hkill.
    apply (destroy_kernel_cases denv kid reason s). exact Hkill.
  - intros ports Hok. apply restart_kernel_returns; assumption.
Qed.

End AgentFacts.

(** ** The statements on the sample host *)

Section OnSamples.
Import Server Samples.

Lemma rec1_cores : core_set rec1 <> ∅.
Proof.
  intros Heq.
  assert (0%nat ∈ core_set rec1) as Hin by (vm_compute; reflexivity).
  rewrite Heq in Hin. exact (not_elem_of_empty _ Hin).
Qed.

Lemma rec1_numa : @numa_consistent host rec1.
Proof.
  intros c Hc. unfold rec1 in Hc. simpl in Hc.
  apply elem_of_union in Hc as [Hc|Hc]; apply elem_of_singleton in Hc;
    subst c; reflexivity.
Qed.

Lemma destroy_kernel_keeps_record_witness :
  keeps_kernels s0
    (snd (@_destroy_kernel host destroy_ok "k1" "user-requested" s0))
  /\ container_registry
       (snd (@_destroy_kernel host destroy_404 "k1" "user-requested" s0))
     !! "k1" = None
  /\ container_registry (snd (clean_kernel clean_ok "k1" s0)) !! "k1" = None.
Proof.
  split; [|split].
  - apply (proj1 (@destroy_kernel_keeps_record host destroy_ok clean_ok "k1"
                    "user-requested" s0)).
    reflexivity.
  - apply (proj1 (proj2 (@destroy_kernel_keeps_record host destroy_404
                           clean_ok "k1" "user-requested" s0)) rec1);
      vm_compute; reflexivity.
  - apply (proj2 (proj2 (@destroy_kernel_keeps_record host destroy_ok
                           clean_ok "k1" "user-requested" s0)) rec1);
      vm_compute; auto.
Defined.

(** With the kill answered by status 404, [_destroy_kernel] returns, the
    record of [k1] is gone and core 0, which [k1] held, is free again. *)
Lemma destroy_kernel_removes_record_on_404 :
  let s' := snd (@_destroy_kernel host destroy_404 "k1" "user-requested" s0) in
  fst (@_destroy_kernel host destroy_404 "k1" "user-requested" s0) = Ok tt
  /\ container_registry s0 !! "k1" = Some rec1
  /\ container_registry s' !! "k1" = None
  /\ 0%nat ∉ free_cores (container_cpu_map s0)
  /\ 0%nat ∈ free_cores (container_cpu_map s').
Proof.
  cbv zeta. repeat split; try (vm_compute; reflexivity).
  vm_compute. discriminate.
Qed.

Lemma create_kernel_failure_keeps_allocation_witness :
  let s' := snd (@_create_kernel host create_refused "python3" None s0) in
  container_cpu_map s' = snd (alloc 1 (container_cpu_map s0))
  /\ (forall c, c ∈ ({[4%nat]} : CoreSet)
                -> c ∉ free_cores (container_cpu_map s'))
  /\ container_registry s' = container_registry s0.
Proof.
  apply (@create_kernel_failure_keeps_allocation host create_refused "python3"
           None s0 ∅ 1 10 1 1 {[4%nat]} (snd (alloc 1 (container_cpu_map s0)))
           (DockerError 500 "server error")); try (vm_compute; reflexivity).
  vm_compute. discriminate.
Defined.

(** The engine refuses the container: [_create_kernel] raises, no record is
    written for the new kernel, and core 4, free before the call, is not
    free after it. *)
Lemma create_kernel_leaks_cores :
  let s' := snd (@_create_kernel host create_refused "python3" None s0) in
  fst (@_create_kernel host create_refused "python3" None s0)
  = Raise (DockerError 500 "server error")
  /\ container_registry s' !! "k2" = None
  /\ 4%nat ∈ free_cores (container_cpu_map s0)
  /\ 4%nat ∉ free_cores (container_cpu_map s').
Proof.
  cbv zeta. repeat split; try (vm_compute; reflexivity).
  vm_compute. discriminate.
Qed.

Lemma create_kernel_restart_timeout_witness :
  let s' := snd (@_create_kernel host (create_ok WaitExpired) "python3"
                   (Some "k1") s0_restarting) in
  fst (@_create_kernel host (create_ok WaitExpired) "python3" (Some "k1")
         s0_restarting) = Raise TimeoutError
  /\ restarting_kernels s' !! "k1" = None
  /\ scheduled s' = scheduled s0_restarting ++ [FCleanKernel "k1"]
  /\ created s' = created s0_restarting
  /\ container_registry s' = container_registry s0_restarting
  /\ container_cpu_map s' = container_cpu_map s0_restarting.
Proof.
  apply (proj2 (@create_kernel_restart_timeout host (create_ok WaitExpired)
                  "python3" "k1" s0_restarting false rec1 ∅ 1 10
                  ltac:(discriminate) eq_refl eq_refl rec1_cores eq_refl
                  eq_refl eq_refl eq_refl));
    reflexivity.
Defined.

Lemma execute_code_exec_timeout_witness :
  fst (@execute_code host (execute_with (Ok (result_of "exec-timeout")))
         "e1" "k1" "c1" "print()" None s0) = Raise AttributeError
  /\ scheduled (snd (@execute_code host
                       (execute_with (Ok (result_of "exec-timeout")))
                       "e1" "k1" "c1" "print()" None s0)) = scheduled s0.
Proof.
  pose proof (@execute_code_exec_timeout host
                (execute_with (Ok (result_of "exec-timeout")))
                "e1" "k1" "c1" "print()" None s0 (result_of "exec-timeout")
                eq_refl eq_refl) as (_ & Hsched & Hattr).
  split; [|exact Hsched].
  apply (Hattr rec1); [reflexivity | intros [x Hx]; discriminate Hx | |].
  - split; [exists []; reflexivity | reflexivity].
  - split; [reflexivity | split; exists []; reflexivity].
Defined.

Lemma restart_kernel_unknown_witness :
  fst (@restart_kernel host restart_ok "k9" s0) = Raise KeyError
  /\ restarting_kernels (snd (@restart_kernel host restart_ok "k9" s0))
     !! "k9" = Some false.
Proof.
  pose proof (@restart_kernel_unknown host restart_ok "k9" s0 eq_refl)
    as (Hraise & Hleft & _).
  split; assumption.
Defined.

Lemma execute_code_cancelled_witness :
  fst (@_execute_code host (execute_with (Raise CancelledError))
         "e1" "k1" "c1" "print()" None s0) = Ok None
  /\ forall out,
       fst (@execute_code host (execute_with (Raise CancelledError))
              "e1" "k1" "c1" "print()" None s0) <> Ok (Some out).
Proof.
  pose proof (@execute_code_cancelled host
                (execute_with (Raise CancelledError))
                "e1" "k1" "c1" "print()" None s0 rec1 eq_refl
                (conj (ex_intro _ [] eq_refl) eq_refl) eq_refl eq_refl)
    as (Hnone & Hcaller & _).
  split; assumption.
Defined.

Lemma match_result_checked_witness :
  (@match_result host (Some (mkResultMap "hello" "" "finished" [] [] None [] [] None))
     match_bad_op = Raise TypeError
   \/ @match_result host
        (Some (mkResultMap "hello" "" "finished" [] [] None [] [] None))
        match_bad_op = Raise AssertionError).
Proof.
  apply (proj1 (@match_result_checked host
                  (Some (mkResultMap "hello" "" "finished" [] [] None [] [] None))
                  match_bad_op)).
  left. intros [Hop|[Hop|Hop]]; discriminate Hop.
Defined.

Lemma restart_kernel_keeps_cores_witness :
  let s' := snd (@restart_kernel host restart_ok "k1" s0) in
  container_cpu_map s' = container_cpu_map s0
  /\ restarting_kernels s' !! "k1" = None
  /\ exists r', container_registry s' !! "k1" = Some r'
       /\ core_set r' = core_set rec1 /\ numa_node r' = numa_node rec1
       /\ ("32774", "32775") = (stdin_port r', stdout_port r').
Proof.
  apply (proj2 (proj2 (@restart_kernel_keeps_cores host restart_ok clean_ok
                         "k1" s0 rec1 ltac:(discriminate) eq_refl rec1_cores
                         rec1_numa))).
  vm_compute. reflexivity.
Defined.

(** During a restart whose kill is answered with status 404 the cores of
    the kernel are freed although its id is in [restarting_kernels]: the
    call raises, the id stays in the table, the record is gone and cores 0
    and 1 are free. *)
Lemma restart_kernel_frees_cores_on_404 :
  let s' := snd (@restart_kernel host restart_404 "k1" s0) in
  fst (@restart_kernel host restart_404 "k1" s0) = Raise KeyError
  /\ restarting_kernels s' !! "k1" = Some false
  /\ container_registry s' !! "k1" = None
  /\ core_set rec1 ⊆ free_cores (container_cpu_map s')
  /\ 0%nat ∉ free_cores (container_cpu_map s0).
Proof.
  cbv zeta. repeat split; try (vm_compute; reflexivity).
  - intros c Hc. unfold rec1 in Hc. simpl in Hc.
    apply elem_of_union in Hc as [Hc|Hc]; apply elem_of_singleton in Hc;
      subst c; vm_compute; reflexivity.
  - vm_compute. discriminate.
Qed.

End OnSamples.
